(** * Husky data grid and smart content: a shallow embedding

    The two components of the repository are modelled as state
    transformers over records that hold the fields of [this] the
    handlers read and write.  Collaborators of the host framework are
    modelled by what the components hand to them: [sandbox.emit]
    appends to the list of emitted events, [sandbox.logger.log] to the
    list of logged calls, [sandbox.util.ajax] to the list of issued
    requests.  Arrays live in a store of array objects, so that two
    fields can hold the same array or two equal copies. *)

From Stdlib Require Import ZArith Bool Lia Ascii.
From stdpp Require Import base option list strings pretty gmap.

Local Open Scope string_scope.
Local Open Scope list_scope.
Local Open Scope Z_scope.

(** ** JavaScript values and the primitives the components use *)

Module JS.

(** The numbers of the model are the doubles that are integers, the two
    infinities and NaN. *)
Inductive value : Type :=
| VUndefined
| VNull
| VBool (b : bool)
| VNum (z : Z)
| VInfinity (negative : bool)
| VNaN
| VStr (s : string).

#[global] Instance value_eq_dec : EqDecision value.
Proof. solve_decision. Defined.

(** [!!v] *)
Definition truthy (v : value) : bool :=
  match v with
  | VUndefined | VNull | VNaN => false
  | VBool b => b
  | VNum z => negb (z =? 0)
  | VInfinity _ => true
  | VStr s => negb (bool_decide (s = EmptyString))
  end.

(** [a === b]: NaN is not equal to itself. *)
Definition strict_eq (a b : value) : bool :=
  match a, b with
  | VNaN, _ | _, VNaN => false
  | _, _ => bool_decide (a = b)
  end.

(** Strings hold the bytes of the UTF-8 encoding of a text, as the
    string literals of this file do; [byte_code] is the value of a
    byte. *)
Definition byte_code (c : Ascii.ascii) : Z := Z.of_N (Ascii.N_of_ascii c).

(** *** Number::toString

    A number of magnitude up to 2^53 is printed with all its digits.  A
    larger one is a double [a = m * 2 ^ (e - 52)] with a mantissa [m] of
    53 bits; it is printed with the fewest digits [s] for which
    [s * 10 ^ (n - k)] still rounds to [a], followed by zeros while
    [n <= 21] and in exponent form from there. *)

Definition digits_of (a : Z) : Z := Z.of_nat (String.length (pretty a)).

(** The numeral of [k] digits nearest to [a] among those between [lo]
    and [hi], the bounds included when [closed]; [d] is the number of
    digits of [a]. *)
Definition candidate (a lo hi : Z) (closed : bool) (d k : Z) : option Z :=
  let p := 10 ^ (d - k) in
  let s_lo := if closed then (lo + p - 1) / p else lo / p + 1 in
  let s_hi := if closed then hi / p else (hi - 1) / p in
  if s_hi <? s_lo then None
  else
    let q := a / p in
    let below := Z.max s_lo (Z.min s_hi q) in
    let above := Z.max s_lo (Z.min s_hi (q + 1)) in
    let db := Z.abs (a - below * p) in
    let da := Z.abs (above * p - a) in
    Some (if db <? da then below
          else if da <? db then above
          else if Z.even below then below else above).

Fixpoint shortest_from (fuel : nat) (a lo hi : Z) (closed : bool) (d k : Z)
    : Z * Z :=
  match fuel with
  | O => (a, d)
  | S fuel' =>
      match candidate a lo hi closed d k with
      | Some s => if s =? 10 ^ k then (1, d + 1) else (s, d)
      | None => shortest_from fuel' a lo hi closed d (k + 1)
      end
  end.

(** The digits [s] and the position [n] of the decimal point: the
    doubles next to [a] are [ulp] above it and, below it, [ulp] or, at a
    power of two, half of that away; a text half way to a neighbour is
    read as [a] when the mantissa of [a] is even. *)
Definition shortest (a : Z) : Z * Z :=
  let e := Z.log2 a in
  let ulp := 2 ^ (e - 52) in
  let hi := a + ulp / 2 in
  let lo := a - (if a =? 2 ^ e then ulp / 4 else ulp / 2) in
  shortest_from 17 a lo hi (Z.even (a / ulp)) (digits_of a) 1.

Definition zeros (n : Z) : string :=
  foldr String EmptyString (replicate (Z.to_nat n) "0"%char).

Definition large_number_text (a : Z) : string :=
  let '(s, n) := shortest a in
  let ds := pretty s in
  if n <=? 21 then ds +:+ zeros (n - Z.of_nat (String.length ds))
  else
    match ds with
    | String c EmptyString => String c ("e+" +:+ pretty (n - 1))
    | String c r => String c ("." +:+ r +:+ "e+" +:+ pretty (n - 1))
    | EmptyString => EmptyString
    end.

Definition number_text (z : Z) : string :=
  if Z.abs z <=? 2 ^ 53 then pretty z
  else if z <? 0 then "-" +:+ large_number_text (- z)
  else large_number_text z.

(** [String(v)], as used by [+] with a string, by template text and for
    the name of a property. *)
Definition toString (v : value) : string :=
  match v with
  | VUndefined => "undefined"
  | VNull => "null"
  | VBool true => "true"
  | VBool false => "false"
  | VNum z => number_text z
  | VInfinity false => "Infinity"
  | VInfinity true => "-Infinity"
  | VNaN => "NaN"
  | VStr s => s
  end.

(** The text [Array.prototype.join] uses for an element. *)
Definition joinText (v : value) : string :=
  match v with
  | VUndefined | VNull => EmptyString
  | _ => toString v
  end.

(** *** White space

    The white space and the line terminators of the language: TAB, LF,
    VT, FF, CR and SP of one byte, U+00A0 of two bytes, and U+1680,
    U+2000 to U+200A, U+2028, U+2029, U+202F, U+205F, U+3000 and U+FEFF
    of three bytes. *)

Definition is_space (c : Ascii.ascii) : bool :=
  let n := Z.of_N (Ascii.N_of_ascii c) in
  ((9 <=? n) && (n <=? 13)) || (n =? 32).

Definition is_space2 (a b : Ascii.ascii) : bool :=
  (byte_code a =? 194) && (byte_code b =? 160).

Definition is_space3 (a b c : Ascii.ascii) : bool :=
  let x := byte_code a in
  let y := byte_code b in
  let z := byte_code c in
  ((x =? 225) && (y =? 154) && (z =? 128))
  || ((x =? 226) && (y =? 128)
      && (((128 <=? z) && (z <=? 138)) || (z =? 168) || (z =? 169) || (z =? 175)))
  || ((x =? 226) && (y =? 129) && (z =? 159))
  || ((x =? 227) && (y =? 128) && (z =? 128))
  || ((x =? 239) && (y =? 187) && (z =? 191)).

Definition digit_of (c : Ascii.ascii) : option Z :=
  let n := Z.of_N (Ascii.N_of_ascii c) in
  if (48 <=? n) && (n <=? 57) then Some (n - 48) else None.

(** The text without its leading white space. *)
Fixpoint skip_space (s : string) : string :=
  match s with
  | String c r =>
      if is_space c then skip_space r
      else
        match r with
        | String c2 r2 =>
            if is_space2 c c2 then skip_space r2
            else
              match r2 with
              | String c3 r3 => if is_space3 c c2 c3 then skip_space r3 else s
              | EmptyString => s
              end
        | EmptyString => s
        end
  | EmptyString => s
  end.

(** The longest prefix of decimal digits, [None] when there is none. *)
Fixpoint leading_digits (s : string) (acc : option Z) : option Z :=
  match s with
  | String c r =>
      match digit_of c with
      | Some d => leading_digits r (Some (10 * default 0 acc + d))
      | None => acc
      end
  | EmptyString => acc
  end.

Definition signed (s : string) : Z * string :=
  match s with
  | String "-"%char r => (-1, r)
  | String "+"%char r => (1, r)
  | _ => (1, s)
  end.

(** The double nearest to an integer, the even mantissa of two that are
    equally near; integers of magnitude up to 2^53 are doubles, and what
    is nearer to 2^1024 than to the largest double is infinite. *)
Definition nearest_double (z : Z) : value :=
  let a := Z.abs z in
  if a <=? 2 ^ 53 then VNum z
  else
    let unit := 2 ^ (Z.log2 a - 52) in
    let q := a / unit in
    let r := a mod unit in
    let m := if (unit <? 2 * r) || ((unit =? 2 * r) && Z.odd q) then q + 1 else q in
    if 2 ^ 1024 <=? m * unit then VInfinity (z <? 0)
    else VNum (Z.sgn z * (m * unit)).

Definition of_number (n : option Z) : value :=
  match n with Some z => nearest_double z | None => VNaN end.

(** [parseInt(v, 10)]: the argument is converted to a string, leading
    white space and a sign are skipped, and the leading digits are
    read. *)
Definition parseInt (v : value) : value :=
  let '(sg, r) := signed (skip_space (toString v)) in
  of_number (Z.mul sg <$> leading_digits r None).

(** *** Number(v) and comparison *)

(** The numbers a text can stand for: [m * 10 ^ e] before it is rounded
    to a double, an infinity, or NaN. *)
Inductive number : Type :=
| Finite (m e : Z)
| Infinite (negative : bool)
| NotANumber.

(** The value of a digit in a base of at most 16. *)
Definition digit_in (base : Z) (c : Ascii.ascii) : option Z :=
  let n := byte_code c in
  let d := if (48 <=? n) && (n <=? 57) then n - 48
           else if (97 <=? n) && (n <=? 102) then n - 87
           else if (65 <=? n) && (n <=? 70) then n - 55
           else base in
  if d <? base then Some d else None.

(** The longest prefix of digits: its value on top of [acc], its length
    on top of [count], and the rest of the text. *)
Fixpoint read_digits (base : Z) (s : string) (acc count : Z) : Z * Z * string :=
  match s with
  | String c r =>
      match digit_in base c with
      | Some d => read_digits base r (base * acc + d) (count + 1)
      | None => (acc, count, s)
      end
  | EmptyString => (acc, count, s)
  end.

Definition only_space (s : string) : bool :=
  bool_decide (skip_space s = EmptyString).

Fixpoint after_prefix (p s : string) : option string :=
  match p, s with
  | EmptyString, _ => Some s
  | String a p', String b s' => if Ascii.eqb a b then after_prefix p' s' else None
  | String _ _, EmptyString => None
  end.

(** An exponent part, if the text starts with one: its value and the
    rest; [None] when the letter is followed by no digit. *)
Definition exponent_part (s : string) : option (Z * string) :=
  match s with
  | String c r =>
      if (byte_code c =? 101) || (byte_code c =? 69) then
        let '(sg, r1) := signed r in
        let '(x, n, r2) := read_digits 10 r1 0 0 in
        if 0 <? n then Some (sg * x, r2) else None
      else Some (0, s)
  | EmptyString => Some (0, s)
  end.

(** Digits with an optional fraction and exponent, to the end of the
    text but for white space: mantissa and decimal exponent. *)
Definition unsigned_decimal (s : string) : option (Z * Z) :=
  let '(i, ni, r1) := read_digits 10 s 0 0 in
  let '(m, nf, r2) :=
    match r1 with
    | String "."%char r => read_digits 10 r i 0
    | _ => (i, 0, r1)
    end in
  if 0 <? ni + nf then
    '(x, r3) ← exponent_part r2;
    if only_space r3 then Some (m, x - nf) else None
  else None.

Definition decimal_literal (s : string) : number :=
  let '(sg, r) := signed s in
  match after_prefix "Infinity" r with
  | Some rest => if only_space rest then Infinite (sg <? 0) else NotANumber
  | None =>
      match unsigned_decimal r with
      | Some (m, e) => Finite (sg * m) e
      | None => NotANumber
      end
  end.

(** A literal in base 16, 8 or 2, which takes no sign. *)
Definition prefixed_literal (s : string) : option number :=
  match s with
  | String "0"%char (String c r) =>
      let n := byte_code c in
      let base := if (n =? 120) || (n =? 88) then 16
                  else if (n =? 111) || (n =? 79) then 8
                  else if (n =? 98) || (n =? 66) then 2
                  else 0 in
      if base =? 0 then None
      else
        let '(v, count, rest) := read_digits base r 0 0 in
        Some (if (0 <? count) && only_space rest then Finite v 0 else NotANumber)
  | _ => None
  end.

(** [Number(s)] for a string: white space only is 0, a numeric literal
    between white space is its value and any other text is NaN. *)
Definition stringToNumber (s : string) : number :=
  let t := skip_space s in
  if bool_decide (t = EmptyString) then Finite 0 0
  else
    match prefixed_literal t with
    | Some n => n
    | None => decimal_literal t
    end.

(** [Number(v)] *)
Definition toNumber (v : value) : number :=
  match v with
  | VUndefined | VNaN => NotANumber
  | VNull => Finite 0 0
  | VBool b => Finite (if b then 1 else 0) 0
  | VNum z => Finite z 0
  | VInfinity negative => Infinite negative
  | VStr s => stringToNumber s
  end.

(** Half the distance from the integer [n] to the next larger double is
    [2 ^ half_gap n]. *)
Definition half_gap (n : Z) : Z :=
  if n =? 0 then -1075
  else
    let a := Z.abs n in
    let e := Z.log2 a in
    if (n <? 0) && (a =? 2 ^ e) then e - 54 else e - 53.

(** The double nearest to [m * 10 ^ e] is larger than [n], for [n] of
    magnitude below 2^52: the mantissa of [n] is even, so that this is
    [n + 2 ^ half_gap n < m * 10 ^ e]; both sides are scaled to
    integers. *)
Definition exceeds (m e n : Z) : bool :=
  let t := n * 2 ^ 1075 + 2 ^ (1075 + half_gap n) in
  if 0 <=? e then t <? m * 10 ^ e * 2 ^ 1075
  else t * 10 ^ (- e) <? m * 2 ^ 1075.

(** [v > n] for a number literal [n]. *)
Definition gt (v : value) (n : Z) : bool :=
  match toNumber v with
  | Finite m e => exceeds m e n
  | Infinite negative => negb negative
  | NotANumber => false
  end.

(** *** Plain objects *)

(** The names of the properties every plain object inherits from
    [Object.prototype]: reading one of them from an object that has no
    property of its own of that name gives a function (the prototype
    itself for [__proto__]), which is truthy. *)
Definition object_prototype : list string :=
  ["constructor"; "hasOwnProperty"; "isPrototypeOf"; "propertyIsEnumerable";
   "toLocaleString"; "toString"; "valueOf"; "__proto__";
   "__defineGetter__"; "__defineSetter__";
   "__lookupGetter__"; "__lookupSetter__"].

Definition inherited (name : string) : bool :=
  bool_decide (name ∈ object_prototype).

(** [arr.indexOf(x)]: the first index whose element is strictly equal
    to [x], or -1. *)
Fixpoint indexOf (arr : list value) (x : value) : Z :=
  match arr with
  | [] => -1
  | y :: r =>
      if strict_eq y x then 0
      else let i := indexOf r x in if i <? 0 then -1 else i + 1
  end.

(** [arr.splice(start, 1)]: a negative start counts from the end. *)
Definition splice1 (arr : list value) (start : Z) : list value :=
  let len := Z.of_nat (length arr) in
  let from := if start <? 0 then Z.max (len + start) 0 else Z.min start len in
  delete (Z.to_nat from) arr.

(** [arr.pop()]: the last element, [undefined] for an empty array, and
    the array that is left. *)
Definition pop (arr : list value) : value * list value :=
  match reverse arr with
  | [] => (VUndefined, [])
  | x :: r => (x, reverse r)
  end.

Definition push (arr : list value) (x : value) : list value := arr ++ [x].

(** [s.indexOf('?') !== -1] *)
Fixpoint has_question_mark (s : string) : bool :=
  match s with
  | String c r => if Ascii.eqb c "?"%char then true else has_question_mark r
  | EmptyString => false
  end.

(** [parts.join('')] on an array of strings. *)
Definition concat (parts : list string) : string :=
  foldr String.append EmptyString parts.

End JS.

(** ** The data grid (src/husky_components/datagrid/main.js) *)

Module DataGrid.
Import JS.

(** References to array objects. *)
Abbreviation loc := positive.

(** *** Event names, as the component computes them *)

Definition namespace : string := "husky.datagrid".
Definition ITEM_DESELECT : string := namespace +:+ "item.deselect".
Definition ITEM_SELECT : string := namespace +:+ "item.select".
Definition ALL_DESELECT : string := namespace +:+ "all.deselect".
Definition ALL_SELECT : string := namespace +:+ "all.select".
Definition ROW_REMOVED : string := namespace +:+ "row.removed".
Definition PAGE_CHANGE : string := namespace +:+ "page.change".
Definition UPDATED : string := namespace +:+ "updated".
Definition DATA_SORT : string := namespace +:+ "data.sort".

(** An argument handed to [sandbox.emit]: a primitive value, a reference
    to an array, or the DOM event the handler received. *)
Inductive arg : Type :=
| AVal (v : value)
| AArr (l : loc)
| ADomEvent.

Record Emit : Type := { ev_name : string; ev_args : list arg }.

(** *** Configuration and loaded data *)

Record Options : Type := {
  pagination : bool;
  pageSize : value;       (* paginationOptions.pageSize *)
  showPages : value;      (* paginationOptions.showPages *)
  template_row : value    (* options.template && options.template.row *)
}.

(** A row of the data is an object; only its properties are read. *)
Abbreviation Row := (gmap string value).

Definition prop (r : Row) (k : string) : value := default VUndefined (r !! k).

Record Links : Type := {
  sortable : option (gmap string string)   (* attribute to URI template *)
}.

Record Data : Type := {
  links : option Links;
  items : option (list Row);
  embedded : option (list Row);
  page : value;
  pages : value;
  pageDisplay : value
}.

(** The success callbacks the component passes to [load]. *)
Inductive Success : Type :=
| NoCallback
| UpdatedPage
| UpdatedSort
| UpdatedData
| UpdatedSearch.

Record Params : Type := {
  url : string;
  params_page : value;
  success : Success
}.

Record Request : Type := { req_url : string; req_params : Params }.

(** *** Component state *)

Record State : Type := {
  options : Options;
  data : option Data;
  store : gmap loc (list value);   (* the array objects *)
  next : loc;                      (* the next unused reference *)
  allItemIds : loc;
  selectedItemIds : loc;
  sort_attribute : value;
  sort_direction : value;
  emitted : list Emit;             (* calls of sandbox.emit, oldest first *)
  logged : list (list value);      (* calls of sandbox.logger.log *)
  requests : list Request          (* calls of sandbox.util.ajax *)
}.

Definition ascClass : string := "icon-arrow-up".
Definition descClass : string := "icon-arrow-down".
Definition additionalClasses : list string := ["m-left-5"; "small-font"].

Definition with_store (st : State) (s : gmap loc (list value)) (n : loc) : State :=
  {| options := options st; data := data st; store := s; next := n;
     allItemIds := allItemIds st; selectedItemIds := selectedItemIds st;
     sort_attribute := sort_attribute st; sort_direction := sort_direction st;
     emitted := emitted st; logged := logged st; requests := requests st |}.

Definition with_ids (st : State) (a s : loc) : State :=
  {| options := options st; data := data st; store := store st; next := next st;
     allItemIds := a; selectedItemIds := s;
     sort_attribute := sort_attribute st; sort_direction := sort_direction st;
     emitted := emitted st; logged := logged st; requests := requests st |}.

Definition with_sort (st : State) (a d : value) : State :=
  {| options := options st; data := data st; store := store st; next := next st;
     allItemIds := allItemIds st; selectedItemIds := selectedItemIds st;
     sort_attribute := a; sort_direction := d;
     emitted := emitted st; logged := logged st; requests := requests st |}.

Definition with_data (st : State) (d : option Data) : State :=
  {| options := options st; data := d; store := store st; next := next st;
     allItemIds := allItemIds st; selectedItemIds := selectedItemIds st;
     sort_attribute := sort_attribute st; sort_direction := sort_direction st;
     emitted := emitted st; logged := logged st; requests := requests st |}.

(** [this.sandbox.emit(name, args...)] *)
Definition emit (st : State) (name : string) (args : list arg) : State :=
  {| options := options st; data := data st; store := store st; next := next st;
     allItemIds := allItemIds st; selectedItemIds := selectedItemIds st;
     sort_attribute := sort_attribute st; sort_direction := sort_direction st;
     emitted := emitted st ++ [{| ev_name := name; ev_args := args |}];
     logged := logged st; requests := requests st |}.

(** [this.sandbox.logger.log(args...)] *)
Definition log (st : State) (args : list value) : State :=
  {| options := options st; data := data st; store := store st; next := next st;
     allItemIds := allItemIds st; selectedItemIds := selectedItemIds st;
     sort_attribute := sort_attribute st; sort_direction := sort_direction st;
     emitted := emitted st; logged := logged st ++ [args];
     requests := requests st |}.

(** [this.sandbox.util.ajax({url: ..., ...})] *)
Definition ajax (st : State) (r : Request) : State :=
  {| options := options st; data := data st; store := store st; next := next st;
     allItemIds := allItemIds st; selectedItemIds := selectedItemIds st;
     sort_attribute := sort_attribute st; sort_direction := sort_direction st;
     emitted := emitted st; logged := logged st;
     requests := requests st ++ [r] |}.

(** *** Array objects *)

(** The elements of the array a reference points to. *)
Definition deref (st : State) (l : loc) : list value := default [] (store st !! l).

(** The elements of [this.selectedItemIds] and of [this.allItemIds]. *)
Definition selected (st : State) : list value := deref st (selectedItemIds st).
Definition loaded (st : State) : list value := deref st (allItemIds st).

(** An array literal or a copy: a new array object. *)
Definition alloc (st : State) (xs : list value) : loc * State :=
  (next st, with_store st (<[next st := xs]> (store st)) (Pos.succ (next st))).

(** A mutation of the array object in place ([push], [pop], [splice]). *)
Definition mutate (st : State) (l : loc) (f : list value -> list value) : State :=
  with_store st (alter f l (store st)) (next st).

(** *** initialize (lines 193-218), the fields set before [getData] *)

Definition initialize (o : Options) : State :=
  {| options := o; data := None;
     store := {[ 1%positive := []; 2%positive := [] ]}; next := 3%positive;
     allItemIds := 1%positive; selectedItemIds := 2%positive;
     sort_attribute := VUndefined; sort_direction := VUndefined;
     emitted := []; logged := [ [VStr "initialized datagrid"] ]; requests := [] |}.

(** *** getUrl (lines 292-314) *)

Definition links_loaded (st : State) : bool :=
  match data st with
  | Some d => bool_decide (is_Some (links d))
  | None => false
  end.

Definition getUrl (st : State) (params : Params) : string :=
  if links_loaded st then url params
  else
    if pagination (options st) && truthy (pageSize (options st)) then
      let delimiter := if has_question_mark (url params) then "&" else "?" in
      let u := url params +:+ delimiter +:+ "pageSize="
               +:+ toString (pageSize (options st)) in
      if gt (params_page params) 1
      then u +:+ "&page=" +:+ toString (params_page params)
      else u
    else url params.

(** *** load (lines 245-285): the request and its error callback *)

Definition load (st : State) (params : Params) : State :=
  ajax st {| req_url := getUrl st params; req_params := params |}.

Definition load_error (st : State) (params : Params)
    (textStatus errorThrown : value) : State :=
  let st1 := log st [VStr ("An error occured while fetching data from: "
                           +:+ getUrl st params)] in
  let st2 := log st1 [VStr ("textstatus: " +:+ toString textStatus)] in
  log st2 [VStr "errorthrown"; errorThrown].

(** *** prepareTableRows and prepareTableRow (lines 466-541): the ids

    These are the writes of a run in which every row is rendered; the
    cells, whose rendering can throw, are modelled in [DataGridRows]. *)

Definition prepareTableRow (st : State) (row : Row) : State :=
  if truthy (template_row (options st)) then st
  else
    if truthy (prop row "id")
    then mutate st (allItemIds st) (fun a => push a (parseInt (prop row "id")))
    else st.

(** [prepareTable] calls it after it has read [this.data]. *)
Definition prepareTableRows (st : State) : State :=
  let '(l, st1) := alloc st [] in
  let st2 := with_ids st1 l (selectedItemIds st1) in
  match data st2 with
  | Some d =>
      match items d, embedded d with
      | Some rows, _ => foldl prepareTableRow st2 rows
      | None, Some rows => foldl prepareTableRow st2 rows
      | None, None => st2
      end
  | None => st2
  end.

(** *** addRow (lines 673-678) *)

Definition addRow (st : State) (row : Row) : State := prepareTableRow st row.

(** *** resetItemSelection (lines 572-575) *)

Definition resetItemSelection (st : State) : State :=
  let '(a, st1) := alloc st [] in
  let st2 := with_ids st1 a (selectedItemIds st1) in
  let '(s, st3) := alloc st2 [] in
  with_ids st3 (allItemIds st3) s.

(** *** selectItem (lines 581-641) *)

(** What the handler reads from the DOM: the [type] attribute of the
    input element and the [data-id] of its row. *)
Record SelectClick : Type := { input_type : value; row_id : value }.

Definition selectItem (st : State) (ev : SelectClick) : State :=
  let itemId := row_id ev in
  if strict_eq (input_type ev) (VStr "checkbox") then
    if -1 <? indexOf (selected st) itemId then
      let idx := indexOf (selected st) itemId in
      let st1 := mutate st (selectedItemIds st) (fun a => splice1 a idx) in
      emit st1 ITEM_DESELECT [AVal itemId]
    else
      if truthy itemId then
        let st1 := mutate st (selectedItemIds st) (fun a => push a itemId) in
        emit st1 ITEM_SELECT [AVal itemId]
      else emit st ITEM_SELECT [ADomEvent]
  else if strict_eq (input_type ev) (VStr "radio") then
    let oldSelectionId := fst (pop (selected st)) in
    let st1 := mutate st (selectedItemIds st) (fun a => snd (pop a)) in
    let st2 := if truthy oldSelectionId && gt oldSelectionId (-1)
               then emit st1 ITEM_DESELECT [AVal oldSelectionId]
               else st1 in
    if truthy itemId then
      let st3 := mutate st2 (selectedItemIds st2) (fun a => push a itemId) in
      emit st3 ITEM_SELECT [AVal itemId]
    else emit st2 ITEM_SELECT [ADomEvent]
  else st.

(** *** removeRow (lines 707-730) *)

(** The argument of [removeRow]: the click event on the remove icon of a
    row, whose [data-id] the handler reads, or the value that came with
    the [row.remove] event. *)
Inductive RemoveArg : Type :=
| RemoveClick (row_id : value)
| RemoveValue (v : value).

Definition remove_arg (a : RemoveArg) : arg :=
  match a with
  | RemoveClick _ => ADomEvent
  | RemoveValue v => AVal v
  end.

(** [None] is the TypeError of reading [currentTarget] of [null], whose
    [typeof] is ['object']; nothing was written before it. *)
Definition removeRow (st : State) (event : RemoveArg) : option State :=
  id ← match event with
       | RemoveClick rid => Some rid
       | RemoveValue VNull => None
       | RemoveValue v => Some v
       end;
  let idx := indexOf (selected st) id in
  let st1 := if 0 <=? idx
             then mutate st (selectedItemIds st) (fun a => splice1 a idx)
             else st in
  Some (emit st1 ROW_REMOVED [remove_arg event]).

(** *** templates.paginationPageNavigation (lines 1135-1161) *)

(** An [li] element of the page navigation: its classes and the page
    number it carries in [data-page] and as its text. *)
Record PageItem : Type := { li_class : list string; li_page : Z }.

Definition paginationPageNavigation (page pagesDisplay : Z) : list PageItem :=
  let pageItemsCurrentAfter :=
    (fun i => {| li_class := if bool_decide (page = i)
                             then ["page"; "is-selected"; "bold"]
                             else ["page"];
                 li_page := i |})
      <$> seqZ page (pagesDisplay - page + 1) in
  let rest := pagesDisplay - Z.of_nat (length pageItemsCurrentAfter) in
  let pageItemsBefore :=
    if 0 <? rest
    then (fun i => {| li_class := ["page"]; li_page := i |})
           <$> seqZ (page - rest) rest
    else [] in
  pageItemsBefore ++ pageItemsCurrentAfter.

(** What [changeSorting] reads from the DOM: the [data-attribute] of the
    clicked header and the classes of its first [span]. *)
Record SortClick : Type := { attribute : value; span_class : list string }.

Section Host.
(** Functions of the host framework: [sandbox.util.compare] and the
    expansion of a URI template with one variable. *)
Variable compare : list value -> list value -> bool.
Variable expand : string -> string -> value -> string.

(** *** selectAllItems (lines 647-667) *)

Definition selectAllItems (st : State) : State :=
  if compare (selected st) (loaded st) then
    let '(l, st1) := alloc st [] in
    emit (with_ids st1 (allItemIds st1) l) ALL_DESELECT [AVal VNull]
  else
    let '(l, st1) := alloc st (loaded st) in
    let st2 := with_ids st1 (allItemIds st1) l in
    emit st2 ALL_SELECT [AArr (selectedItemIds st2)].

(** *** changeSorting (lines 926-956) *)


(** [this.data.links.sortable[attribute]], read from the properties of
    the object itself, which the map holds; [None] is the TypeError of
    reading a property of [null] or [undefined].  For a name the object
    lacks and [inherited] holds of, the code finds a property of
    [Object.prototype] instead of [undefined]. *)
Definition sortable_link (st : State) (attr : value) : option value :=
  d ← data st;
  l ← links d;
  m ← sortable l;
  Some (from_option VStr VUndefined (m !! toString attr)).

Definition changeSorting (st : State) (ev : SortClick) : option State :=
  if truthy (attribute ev) then
    link ← sortable_link st (attribute ev);
    if truthy link then
      let st1 := emit st DATA_SORT [] in
      let direction :=
        if bool_decide (ascClass ∈ span_class ev) then VStr "desc" else VStr "asc" in
      let st2 := with_sort st1 (attribute ev) direction in
      let u := expand (toString link) "sortOrder" direction in
      Some (load st2 {| url := u; params_page := VUndefined; success := UpdatedSort |})
    else Some st
  else Some st.

End Host.

(** *** setHeaderClasses (lines 962-979) *)

(** The classes added to the header of the sorted column and to its
    [span]; nothing is added while no attribute is set. *)
Definition setHeaderClasses (st : State) : option (list string * list string) :=
  if truthy (sort_attribute st) then
    if strict_eq (sort_direction st) (VStr "asc")
    then Some (["bold"], ascClass :: additionalClasses)
    else Some (["bold"], descClass :: additionalClasses)
  else None.

(** *** resetSortingOptions (lines 856-859) *)

Definition resetSortingOptions (st : State) : State := with_sort st VNull VNull.

(** *** Well-formed states *)

(** The two id arrays are distinct array objects of the store, and every
    array object of the store was allocated before [next]. *)
Definition wf (st : State) : Prop :=
  allItemIds st ≠ selectedItemIds st /\
  is_Some (store st !! allItemIds st) /\
  is_Some (store st !! selectedItemIds st) /\
  forall l, is_Some (store st !! l) -> (l < next st)%positive.

(** The state a handler leaves: a handler that throws has written nothing. *)
Definition after (st : State) (r : option State) : State := default st r.

(** The id [removeRow] looks for. *)
Definition removed_id (a : RemoveArg) : value :=
  match a with RemoveClick rid => rid | RemoveValue v => v end.

End DataGrid.

(** ** The smart content component (src/unnamed/part_000) *)

Module SmartContent.
Import JS.

(** A value of the overlay data: a primitive or an array of primitives. *)
Inductive field : Type :=
| FVal (v : value)
| FArr (vs : list value).

(** The text [join] puts for an element; an array is joined with commas. *)
Fixpoint commaJoin (vs : list value) : string :=
  match vs with
  | [] => EmptyString
  | [v] => joinText v
  | v :: r => joinText v +:+ "," +:+ commaJoin r
  end.

Definition fieldText (f : field) : string :=
  match f with
  | FVal v => joinText v
  | FArr vs => commaJoin vs
  end.

Record Options : Type := {
  visibleItems : Z;
  instanceName : string;
  url : string;
  dataSourceParameter : string;
  includeSubFoldersParameter : string;
  categoryParameter : string;
  tagsParameter : string;
  sortByParameter : string;
  sortMethodParameter : string;
  presentAsParameter : string;
  limitResultParameter : string
}.

Record OverlayData : Type := {
  dataSource : field;
  includeSubFolders : field;
  category : field;
  tags : field;
  sortBy : field;
  sortMethod : field;
  presentAs : field;
  limitResult : field
}.

Record Item : Type := { item_id : value; item_name : value }.

(** An [li] rendered from [templates.contentItem]. *)
Record ContentItem : Type := { dataId : value; value_ : value; num : Z }.

(** What [this.$content] holds; a template is named by the translation
    key it is rendered with. *)
Inductive Content : Type :=
| NoContent (translation_key : string)
| Loader
| ItemsList (lis : list ContentItem).

Inductive Toggler : Type := ViewAll | ViewLess.

(** The text of the footer: the two counts and the view toggler. *)
Record Footer : Type := {
  footer_visible : Z;
  footer_total : Z;
  footer_toggler : option Toggler
}.

(** [this.$footer]: [null], or an element that is in the container or
    out of it. *)
Inductive FooterState : Type :=
| FooterNull
| FooterDetached (f : Footer)
| FooterAttached (f : Footer).

Record State : Type := {
  options : Options;
  itemsVisible : Z;
  items : list Item;
  URI_str : string;
  URI_hasChanged : bool;
  overlayData : OverlayData;
  content : Content;
  footer : FooterState;
  emitted : list string;           (* calls of sandbox.emit, oldest first *)
  logged : list (list value);      (* calls of sandbox.logger.log *)
  requests : list string;          (* urls handed to sandbox.util.ajax *)
  started : list string            (* components handed to sandbox.start *)
}.

Definition with_view (st : State) (v : Z) (c : Content) (f : FooterState) : State :=
  {| options := options st; itemsVisible := v; items := items st;
     URI_str := URI_str st; URI_hasChanged := URI_hasChanged st;
     overlayData := overlayData st; content := c; footer := f;
     emitted := emitted st; logged := logged st;
     requests := requests st; started := started st |}.

Definition with_URI (st : State) (s : string) (h : bool) : State :=
  {| options := options st; itemsVisible := itemsVisible st; items := items st;
     URI_str := s; URI_hasChanged := h;
     overlayData := overlayData st; content := content st; footer := footer st;
     emitted := emitted st;
     logged := logged st; requests := requests st; started := started st |}.

Definition with_items (st : State) (l : list Item) : State :=
  {| options := options st; itemsVisible := itemsVisible st; items := l;
     URI_str := URI_str st; URI_hasChanged := URI_hasChanged st;
     overlayData := overlayData st; content := content st; footer := footer st;
     emitted := emitted st;
     logged := logged st; requests := requests st; started := started st |}.

Definition emit (st : State) (name : string) : State :=
  {| options := options st; itemsVisible := itemsVisible st; items := items st;
     URI_str := URI_str st; URI_hasChanged := URI_hasChanged st;
     overlayData := overlayData st; content := content st; footer := footer st;
     emitted := emitted st ++ [name];
     logged := logged st; requests := requests st; started := started st |}.

Definition log (st : State) (args : list value) : State :=
  {| options := options st; itemsVisible := itemsVisible st; items := items st;
     URI_str := URI_str st; URI_hasChanged := URI_hasChanged st;
     overlayData := overlayData st; content := content st; footer := footer st;
     emitted := emitted st;
     logged := logged st ++ [args]; requests := requests st;
     started := started st |}.

Definition ajax (st : State) (u : string) : State :=
  {| options := options st; itemsVisible := itemsVisible st; items := items st;
     URI_str := URI_str st; URI_hasChanged := URI_hasChanged st;
     overlayData := overlayData st; content := content st; footer := footer st;
     emitted := emitted st;
     logged := logged st; requests := requests st ++ [u];
     started := started st |}.

Definition start (st : State) (name : string) : State :=
  {| options := options st; itemsVisible := itemsVisible st; items := items st;
     URI_str := URI_str st; URI_hasChanged := URI_hasChanged st;
     overlayData := overlayData st; content := content st; footer := footer st;
     emitted := emitted st;
     logged := logged st; requests := requests st;
     started := started st ++ [name] |}.

(** *** Event names (lines 216-279) *)

Definition eventNamespace : string := "husky.smart-content.".

Definition createEventName (st : State) (postFix : string) : string :=
  eventNamespace
  +:+ (if negb (bool_decide (instanceName (options st) = EmptyString))
       then instanceName (options st) +:+ "." else EmptyString)
  +:+ postFix.

Definition DATA_REQUEST (st : State) : string := createEventName st "data-request".
Definition DATA_RETRIEVED (st : State) : string := createEventName st "data-retrieved".
Definition DATA_CHANGED (st : State) : string := createEventName st "data-changed".

(** *** setVariables, initOverlayData and renderStartContent
    (lines 326-392, 502-508): the state before the first [setURI] *)

Definition setVariables (o : Options) (d : OverlayData) : State :=
  {| options := o; itemsVisible := visibleItems o; items := [];
     URI_str := EmptyString; URI_hasChanged := false; overlayData := d;
     content := NoContent "smart-content.nocontent-selected";
     footer := FooterNull;
     emitted := []; logged := []; requests := []; started := [] |}.

(** *** detachFooter (lines 553-557) *)

Definition detachFooter (st : State) : State :=
  match footer st with
  | FooterAttached f => with_view st (itemsVisible st) (content st) (FooterDetached f)
  | _ => st
  end.

(** *** appendViewToggler (lines 536-548) *)

Definition appendViewToggler (st : State) : option Toggler :=
  let len := Z.of_nat (length (items st)) in
  if itemsVisible st <? len then Some ViewAll
  else if visibleItems (options st) <? len then Some ViewLess
  else None.

(** *** renderFooter (lines 513-531) *)

Definition renderFooter (st : State) : State :=
  let len := Z.of_nat (length (items st)) in
  let v := if len <? itemsVisible st then len else itemsVisible st in
  let st1 := with_view st v (content st) (footer st) in
  let f := {| footer_visible := v; footer_total := len;
              footer_toggler := appendViewToggler st1 |} in
  with_view st1 v (content st1) (FooterAttached f).

(** *** renderContent (lines 470-496) *)

(** The loop over [this.items]: [i] is the index of the head of [l]. *)
Fixpoint contentItems (l : list Item) (i visible : Z) : list ContentItem :=
  match l with
  | [] => []
  | it :: r =>
      if i <? visible
      then {| dataId := item_id it; value_ := item_name it; num := i + 1 |}
           :: contentItems r (i + 1) visible
      else []
  end.

Definition renderContent (st : State) : State :=
  if negb (Z.of_nat (length (items st)) =? 0) then
    let ul := contentItems (items st) 0 (itemsVisible st) in
    renderFooter (with_view st (itemsVisible st) (ItemsList ul) (footer st))
  else
    detachFooter
      (with_view st (itemsVisible st) (NoContent "smart-content.nocontent-selected")
         (footer st)).

(** *** toggleView (lines 631-638) *)

Definition toggleView (st : State) : State :=
  let v := if itemsVisible st <? Z.of_nat (length (items st))
           then Z.of_nat (length (items st))
           else visibleItems (options st) in
  renderContent (with_view st v (content st) (footer st)).

(** *** startLoader (lines 609-625) *)

Definition startLoader (st : State) : State :=
  let st1 := detachFooter st in
  start (with_view st1 (itemsVisible st1) Loader (footer st1)) "loader@husky".

(** *** setURI (lines 788-809) *)

Definition newURI (st : State) : string :=
  let o := options st in
  let d := overlayData st in
  let delimiter := if negb (has_question_mark (url o)) then "?" else "&" in
  JS.concat [url o;
    delimiter; dataSourceParameter o; "="; fieldText (dataSource d);
    "&"; includeSubFoldersParameter o; "="; fieldText (includeSubFolders d);
    "&"; categoryParameter o; "="; fieldText (category d);
    "&"; tagsParameter o; "="; fieldText (tags d);
    "&"; sortByParameter o; "="; fieldText (sortBy d);
    "&"; sortMethodParameter o; "="; fieldText (sortMethod d);
    "&"; presentAsParameter o; "="; fieldText (presentAs d);
    "&"; limitResultParameter o; "="; fieldText (limitResult d)].

Definition setURI (st : State) : State :=
  let n := newURI st in
  if negb (bool_decide (n = URI_str st)) then
    let st1 := if negb (bool_decide (URI_str st = EmptyString))
               then emit st (DATA_CHANGED st) else st in
    with_URI st1 n true
  else with_URI st (URI_str st) false.

(** *** loadContent (lines 814-832): the request and its callbacks *)

Definition loadContent (st : State) : State :=
  if URI_hasChanged st then
    let st1 := emit st (DATA_REQUEST st) in
    let st2 := startLoader st1 in
    ajax st2 (URI_str st2)
  else st.

Definition loadContent_success (st : State) (result : list Item) : State :=
  emit (with_items st result) (DATA_RETRIEVED st).

Definition loadContent_error (st : State) (error : value) : State :=
  log st [error].

End SmartContent.

(** ** Sample configurations and states *)

Module Samples.
Import JS.

(** The defaults of the data grid (lines 40-63), as far as modelled. *)
Definition defaults : DataGrid.Options :=
  {| DataGrid.pagination := false;
     DataGrid.pageSize := VNull;
     DataGrid.showPages := VNull;
     DataGrid.template_row := VUndefined |}.

Definition data_of (rows : list DataGrid.Row) : DataGrid.Data :=
  {| DataGrid.links := None;
     DataGrid.items := Some rows;
     DataGrid.embedded := None;
     DataGrid.page := VUndefined;
     DataGrid.pages := VUndefined;
     DataGrid.pageDisplay := VUndefined |}.

(** The grid after its rows were prepared from [rows]. *)
Definition grid_of (rows : list DataGrid.Row) : DataGrid.State :=
  DataGrid.prepareTableRows
    (DataGrid.with_data (DataGrid.initialize defaults) (Some (data_of rows))).

Definition row_with_id (v : value) : DataGrid.Row := {[ "id" := v ]}.

(** One row whose id is the text abc. *)
Definition grid_abc : DataGrid.State := grid_of [row_with_id (VStr "abc")].

Definition checkbox_click (v : value) : DataGrid.SelectClick :=
  {| DataGrid.input_type := VStr "checkbox"; DataGrid.row_id := v |}.

Definition radio_click (v : value) : DataGrid.SelectClick :=
  {| DataGrid.input_type := VStr "radio"; DataGrid.row_id := v |}.

(** Three rows with ids 1, 2 and 3. *)
Definition grid_123 : DataGrid.State :=
  grid_of [row_with_id (VNum 1); row_with_id (VNum 2); row_with_id (VNum 3)].

(** A comparison of two arrays by their elements. *)
Definition compare_elements (a b : list value) : bool := bool_decide (a = b).

(** A grid whose data carries the sort links [m]. *)
Definition grid_sortable (m : gmap string string) : DataGrid.State :=
  DataGrid.with_data (DataGrid.initialize defaults)
    (Some {| DataGrid.links := Some {| DataGrid.sortable := Some m |};
             DataGrid.items := Some [];
             DataGrid.embedded := None;
             DataGrid.page := VNum 1;
             DataGrid.pages := VNum 1;
             DataGrid.pageDisplay := VNull |}).

Definition header_click (a : string) (classes : list string) : DataGrid.SortClick :=
  {| DataGrid.attribute := VStr a; DataGrid.span_class := classes |}.

(** A stand-in for the expansion of a URI template: the value of the
    variable is appended to the template. *)
Definition expand_append (template var : string) (v : value) : string :=
  template +:+ toString v.

(** A grid configured for pages of 10 rows. *)
Definition paged : DataGrid.Options :=
  {| DataGrid.pagination := true;
     DataGrid.pageSize := VNum 10;
     DataGrid.showPages := VNum 5;
     DataGrid.template_row := VUndefined |}.

Definition params_of (u : string) (p : value) : DataGrid.Params :=
  {| DataGrid.url := u; DataGrid.params_page := p;
     DataGrid.success := DataGrid.NoCallback |}.

(** The defaults of the smart content (lines 75-107), with [u] as url. *)
Definition smart_options (u : string) : SmartContent.Options :=
  {| SmartContent.visibleItems := 5;
     SmartContent.instanceName := "undefined";
     SmartContent.url := u;
     SmartContent.dataSourceParameter := "dataSource";
     SmartContent.includeSubFoldersParameter := "includeSubFolders";
     SmartContent.categoryParameter := "category";
     SmartContent.tagsParameter := "tags";
     SmartContent.sortByParameter := "sortBy";
     SmartContent.sortMethodParameter := "sortMethod";
     SmartContent.presentAsParameter := "presentAs";
     SmartContent.limitResultParameter := "limitResult" |}.

(** The overlay data [initOverlayData] builds from the defaults. *)
Definition smart_overlay : SmartContent.OverlayData :=
  {| SmartContent.dataSource := SmartContent.FVal (VStr EmptyString);
     SmartContent.includeSubFolders := SmartContent.FVal (VBool false);
     SmartContent.category := SmartContent.FVal VNull;
     SmartContent.tags := SmartContent.FArr [];
     SmartContent.sortBy := SmartContent.FVal VNull;
     SmartContent.sortMethod := SmartContent.FVal (VStr "asc");
     SmartContent.presentAs := SmartContent.FVal VNull;
     SmartContent.limitResult := SmartContent.FVal VNull |}.

Definition smart_start : SmartContent.State :=
  SmartContent.setVariables (smart_options "/api/content") smart_overlay.

Definition item (n : Z) (name : string) : SmartContent.Item :=
  {| SmartContent.item_id := VNum n; SmartContent.item_name := VStr name |}.

(** The component holding seven items, five of them visible. *)
Definition smart_seven : SmartContent.State :=
  SmartContent.with_items smart_start
    [item 11 "a"; item 12 "b"; item 13 "c"; item 14 "d"; item 15 "e";
     item 16 "f"; item 17 "g"].

End Samples.

(** ** The smart content: its event handlers (lines 562-591, 655-658) *)

Module SmartContentHandlers.
Import JS SmartContent.

(** The handler of the input-retrieved event. *)
Definition onInputRetrieved (st : State) : State := loadContent (setURI st).

(** The handler of the data-retrieved event, as far as it writes the
    content and the footer. *)
Definition onDataRetrieved (st : State) : State := renderContent st.

(** The success callback of the request: [emit] runs the handler of
    data-retrieved before it returns. *)
Definition retrieved (st : State) (result : list Item) : State :=
  onDataRetrieved (loadContent_success st result).

End SmartContentHandlers.

(** ** The data grid: widths, the selected ids and page changes *)

Module DataGridPages.
Import JS DataGrid.

(** *** getNumberAndUnit (lines 452-460) *)

Definition is_digit (c : Ascii.ascii) : bool := bool_decide (is_Some (digit_of c)).

(** A line terminator, which the dot of a regular expression does not
    match: LF and CR of one byte, U+2028 and U+2029 of three bytes. *)
Definition is_line_end (c : Ascii.ascii) : bool :=
  let n := Z.of_N (Ascii.N_of_ascii c) in (n =? 10) || (n =? 13).

Definition is_line_end3 (a b c : Ascii.ascii) : bool :=
  (byte_code a =? 226) && (byte_code b =? 128)
  && ((byte_code c =? 168) || (byte_code c =? 169)).

(** The text starts with a line terminator. *)
Definition at_line_end (s : string) : bool :=
  match s with
  | String c r =>
      is_line_end c
      || match r with
         | String c2 (String c3 _) => is_line_end3 c c2 c3
         | _ => false
         end
  | EmptyString => false
  end.

(** The longest prefix of digits, and what follows it. *)
Fixpoint span_digits (s : string) : string * string :=
  match s with
  | String c r =>
      if is_digit c
      then let '(d, rest) := span_digits r in (String c d, rest)
      else (EmptyString, s)
  | EmptyString => (EmptyString, s)
  end.

(** The leftmost run of digits and what follows it: the first group of
    the expression and the text its remainder is matched against. *)
Fixpoint first_digits (s : string) : option (string * string) :=
  match s with
  | String c r => if is_digit c then Some (span_digits s) else first_digits r
  | EmptyString => None
  end.

(** The text up to the first line terminator: what the last group of the
    expression, any characters but line terminators, matches. *)
Fixpoint up_to_line_end (s : string) : string :=
  match s with
  | String c r => if at_line_end s then EmptyString else String c (up_to_line_end r)
  | EmptyString => EmptyString
  end.

(** [None] is the TypeError of indexing [null], the result of [match]
    when the text holds no digit. *)
Definition getNumberAndUnit (numberUnit defaultUnit : value) : option (value * value) :=
  '(number, rest) ← first_digits (toString numberUnit);
  let unit := up_to_line_end (skip_space rest) in
  Some (VStr number,
        if truthy defaultUnit && negb (truthy (VStr unit))
        then defaultUnit else VStr unit).

(** Every character of a text passes a test. *)
Fixpoint every (p : Ascii.ascii -> bool) (s : string) : bool :=
  match s with
  | String c r => p c && every p r
  | EmptyString => true
  end.

(** A byte of a character of one byte. *)
Definition is_ascii (c : Ascii.ascii) : bool := byte_code c <? 128.

(** The first character of a text, if any, passes a test. *)
Definition starts (p : Ascii.ascii -> bool) (s : string) : bool :=
  match s with
  | String c _ => p c
  | EmptyString => true
  end.

(** *** getSelectedItemsIds (lines 1087-1093) *)

Definition ITEMS_SELECTED : string := namespace +:+ "items.selected".

(** With a callback, the callback is called with the array; [Some l] is
    the reference it receives. Without one, the array goes out with the
    items.selected event. *)
Definition getSelectedItemsIds (st : State) (callback_is_function : bool)
    : State * option loc :=
  if callback_is_function then (st, Some (selectedItemIds st))
  else (emit st ITEMS_SELECTED [AArr (selectedItemIds st)], None).

(** *** changePage (lines 822-854) *)

(** The component with the links of [this.data.links] that [Links] does
    not hold, by name (first, prev, next, last, pagination, ...); they are
    read only where [this.data.links] is there. *)
Record Component : Type := {
  core : State;
  named_links : gmap string string
}.

(** A handler that returned, or one that threw after the writes it made. *)
Inductive outcome : Type :=
| Returned (c : Component)
| Thrown (c : Component).

Definition state_of (o : outcome) : State :=
  match o with Returned c | Thrown c => core c end.

(** [this.data.links[name]], read from the links of the object itself
    that are strings; the object also holds [sortable], and inherits the
    properties [inherited] holds of. *)
Definition link (c : Component) (name : string) : value :=
  from_option VStr VUndefined (named_links c !! name).

Section Host.
(** The expansion of a URI template, possibly missing, with one variable. *)
Variable expand : value -> string -> value -> string.

(** [page] is the [data-page] of the clicked entry. *)
Definition changePage (c : Component) (page : value) : outcome :=
  if truthy page then
    let st1 := resetItemSelection (core c) in
    let st2 := emit st1 PAGE_CHANGE [AVal (VStr "change page")] in
    let c2 := {| core := st2; named_links := named_links c |} in
    match data st2 ≫= links with
    | None => Thrown c2
    | Some _ =>
        let uri := link c2 (toString page) in
        let u := if truthy uri then toString uri
                 else expand (link c2 "pagination") "page" page in
        Returned
          {| core := load st2 {| url := u; params_page := page;
                                 success := UpdatedPage |};
             named_links := named_links c |}
    end
  else Returned c.

End Host.

End DataGridPages.

(** ** The data grid: the cells of a row (lines 466-566) *)

Module DataGridRows.
Import JS DataGrid.

(** The fields the rendering of a row reads beside those of [State]:
    [this.rowStructure], to which [prepareTableHead] adds the attribute
    of every column after id, and [options.excludeFields]. *)
Record Table : Type := {
  grid : State;
  rowStructure : list value;
  excludeFields : list value
}.

Definition with_grid (t : Table) (st : State) : Table :=
  {| grid := st; rowStructure := rowStructure t; excludeFields := excludeFields t |}.

(** The rows were rendered, or a cell threw after the writes made. *)
Inductive rendering : Type :=
| Rendered (t : Table)
| Failed (t : Table).

(** setValueOfRowCell (lines 548-566): for a key that is not excluded
    it reads [value.thumb], a TypeError when the value is [null] or
    [undefined]; an excluded key goes into an attribute of the row. *)
Definition cell_throws (excluded : list value) (key v : value) : bool :=
  (indexOf excluded key <? 0)
  && (bool_decide (v = VNull) || bool_decide (v = VUndefined)).

(** [row[key]]: [None] stands for the function or object that a name of
    [Object.prototype] gives when the row has no property of that name. *)
Definition read_cell (row : Row) (key : value) : option value :=
  match row !! toString key with
  | Some v => Some v
  | None => if inherited (toString key) then None else Some VUndefined
  end.

(** The cells of a row (lines 522-533): with more than the id in the
    row structure its keys are read from the row, otherwise every
    property of the row itself is a cell; [row.hasOwnProperty] is called
    for each, a TypeError when the row has a property of that name,
    which is no function. *)
Definition row_throws (structure excluded : list value) (row : Row) : bool :=
  if 1 <? Z.of_nat (length structure) then
    existsb (fun key => from_option (cell_throws excluded key) false
                          (read_cell row key)) structure
  else
    bool_decide (is_Some (row !! "hasOwnProperty"))
    || existsb (fun kv => cell_throws excluded (VStr kv.1) kv.2) (map_to_list row).

(** prepareTableRow (lines 491-541): the id is pushed before the cells
    are rendered. *)
Definition prepareTableRow (t : Table) (row : Row) : rendering :=
  if truthy (template_row (options (grid t))) then Rendered t
  else
    let st1 := if truthy (prop row "id")
               then mutate (grid t) (allItemIds (grid t))
                      (fun a => push a (parseInt (prop row "id")))
               else grid t in
    if row_throws (rowStructure t) (excludeFields t) row
    then Failed (with_grid t st1)
    else Rendered (with_grid t st1).

(** [rows.forEach]: the rows in order, up to the first that throws. *)
Fixpoint forEach (t : Table) (rows : list Row) : rendering :=
  match rows with
  | [] => Rendered t
  | row :: rest =>
      match prepareTableRow t row with
      | Rendered t1 => forEach t1 rest
      | Failed t1 => Failed t1
      end
  end.

(** prepareTableRows (lines 466-484); reading [this.data.items] throws
    when [this.data] is [null]. *)
Definition prepareTableRows (t : Table) : rendering :=
  let '(l, st1) := alloc (grid t) [] in
  let t2 := with_grid t (with_ids st1 l (selectedItemIds st1)) in
  match data (grid t2) with
  | Some d =>
      match items d, embedded d with
      | Some rows, _ => forEach t2 rows
      | None, Some rows => forEach t2 rows
      | None, None => Rendered t2
      end
  | None => Failed t2
  end.



End DataGridRows.

(** ** More sample states *)

Module MoreSamples.
Import JS.

(** The first of four pages, with the rows 1, 2 and 3. *)
Definition paged_data : DataGrid.Data :=
  {| DataGrid.links := Some {| DataGrid.sortable := None |};
     DataGrid.items := None;
     DataGrid.embedded :=
       Some [Samples.row_with_id (VNum 1);
             Samples.row_with_id (VNum 2);
             Samples.row_with_id (VNum 3)];
     DataGrid.page := VNum 1;
     DataGrid.pages := VNum 4;
     DataGrid.pageDisplay := VNum 5 |}.

(** A paged grid that has loaded that page with its links. *)
Definition paged_grid : DataGridPages.Component :=
  {| DataGridPages.core :=
       DataGrid.prepareTableRows
         (DataGrid.with_data (DataGrid.initialize Samples.paged) (Some paged_data));
     DataGridPages.named_links :=
       {[ "next" := "/api/items?page=2&pageSize=10";
          "pagination" := "/api/items?pageSize=10&page=" ]} |}.

(** A stand-in for the expansion of a URI template: the value of the
    variable is appended to the template. *)
Definition expand_append (template : value) (var : string) (v : value) : string :=
  toString template +:+ toString v.

(** A grid that has received [rows] and is about to render them, with
    the row structure and the excluded fields of [initialize]. *)
Definition table_of_rows (rows : list DataGrid.Row) : DataGridRows.Table :=
  {| DataGridRows.grid :=
       DataGrid.with_data (DataGrid.initialize Samples.defaults)
         (Some (Samples.data_of rows));
     DataGridRows.rowStructure := [VStr "id"];
     DataGridRows.excludeFields := [VStr "id"] |}.


End MoreSamples.

(** * Properties *)

(** ** JavaScript primitives *)

Module JSFacts.
Import JS.

Example parseInt_px : parseInt (VStr " 12px") = VNum 12.
Proof. reflexivity. Qed.

Example parseInt_number : parseInt (VNum (-7)) = VNum (-7).
Proof. vm_compute. reflexivity. Qed.

Example parseInt_letters : parseInt (VStr "abc") = VNaN.
Proof. reflexivity. Qed.

Example gt_letters : gt (VStr "abc") (-1) = false.
Proof. vm_compute. reflexivity. Qed.

Example gt_padded : gt (VStr "007 ") (-1) = true.
Proof. vm_compute. reflexivity. Qed.

Example gt_exponent : gt (VStr "1e3") 1 = true.
Proof. vm_compute. reflexivity. Qed.

Example gt_fraction : gt (VStr "1.5") 1 = true /\ gt (VStr ".5") 1 = false.
Proof. split; vm_compute; reflexivity. Qed.

Example gt_hexadecimal : gt (VStr "0x10") 1 = true /\ gt (VStr "-0x10") (-1) = false.
Proof. split; vm_compute; reflexivity. Qed.

Example gt_infinity :
  gt (VStr "Infinity") 1 = true /\ gt (VStr "-Infinity") (-1) = false.
Proof. split; vm_compute; reflexivity. Qed.

(** A text that is nearer to 1 than to the next double is read as 1. *)
Example gt_rounded :
  gt (VStr "1.0000000000000001") 1 = false /\
  gt (VStr "1.0000000000000002") 1 = true.
Proof. split; vm_compute; reflexivity. Qed.

Lemma half_gap_bounds (n : Z) :
  - 2 ^ 52 < n < 2 ^ 52 -> -1075 <= half_gap n < 0.
Proof.
  intros Hn. unfold half_gap.
  destruct (Z.eqb_spec n 0) as [->|Hn0]; [lia|].
  assert (Ha : 0 < Z.abs n < 2 ^ 52) by lia.
  assert (0 <= Z.log2 (Z.abs n)) by apply Z.log2_nonneg.
  assert (Z.log2 (Z.abs n) < 52) by (apply Z.log2_lt_pow2; lia).
  destruct ((n <? 0) && (Z.abs n =? 2 ^ Z.log2 (Z.abs n))); lia.
Qed.

(** On the integers, [gt] is the comparison of integers. *)
Lemma gt_integer (z n : Z) :
  - 2 ^ 52 < n < 2 ^ 52 -> gt (VNum z) n = (n <? z).
Proof.
  intros Hn. pose proof (half_gap_bounds n Hn) as Hh.
  unfold gt, toNumber, exceeds. cbn [Z.leb Z.compare].
  change (10 ^ 0) with 1. rewrite Z.mul_1_r.
  assert (Hp : 0 < 2 ^ (1075 + half_gap n) < 2 ^ 1075).
  { split; [apply Z.pow_pos_nonneg; lia|].
    apply Z.pow_lt_mono_r; lia. }
  generalize dependent (2 ^ (1075 + half_gap n)). intros g Hg.
  assert (Hq : 0 < 2 ^ 1075) by (apply Z.pow_pos_nonneg; lia).
  generalize dependent (2 ^ 1075). intros q Hg Hq.
  destruct (Z.ltb_spec n z), (Z.ltb_spec (n * q + g) (z * q)); try done; nia.
Qed.

Example toString_large :
  toString (VNum (10 ^ 21)) = "1e+21" /\
  toString (VNum (2 ^ 69)) = "590295810358705700000" /\
  toString (VNum (- 2 ^ 70)) = "-1.1805916207174113e+21".
Proof. repeat split; vm_compute; reflexivity. Qed.

Example parseInt_rounded :
  parseInt (VStr "9007199254740993") = VNum 9007199254740992 /\
  parseInt (VNum (10 ^ 21)) = VNum 1.
Proof. split; vm_compute; reflexivity. Qed.

Example indexOf_third : indexOf [VNum 1; VNaN; VNum 3] (VNum 3) = 2.
Proof. reflexivity. Qed.

Example indexOf_NaN : indexOf [VNum 1; VNaN] VNaN = -1.
Proof. reflexivity. Qed.

Example pop_two : pop [VNum 1; VNum 2] = (VNum 2, [VNum 1]).
Proof. reflexivity. Qed.

End JSFacts.

(** ** Arrays *)

Module ArrayFacts.
Import JS.

Lemma indexOf_bounds (arr : list value) (x : value) :
  -1 <= indexOf arr x < Z.of_nat (length arr).
Proof.
  induction arr as [|y r IH]; simpl; [lia|].
  destruct (strict_eq y x); [lia|].
  destruct (Z.ltb_spec (indexOf r x) 0); lia.
Qed.

(** A found index splits the array around the first element strictly
    equal to the one searched. *)
Lemma indexOf_found (arr : list value) (x : value) :
  0 <= indexOf arr x ->
  exists before y after,
    arr = before ++ y :: after /\
    strict_eq y x = true /\
    Forall (fun z => strict_eq z x = false) before /\
    Z.to_nat (indexOf arr x) = length before.
Proof.
  induction arr as [|y r IH]; simpl; [lia|].
  destruct (strict_eq y x) eqn:E.
  - intros _. exists [], y, r. repeat split; auto.
  - destruct (Z.ltb_spec (indexOf r x) 0) as [Hlt|Hge]; [lia|].
    intros _. destruct (IH Hge) as (b & z & a & -> & Hz & Hb & Hlen).
    exists (y :: b), z, a. repeat split; auto.
    simpl. rewrite <- Hlen. lia.
Qed.

Lemma indexOf_absent (arr : list value) (x : value) :
  indexOf arr x < 0 -> Forall (fun z => strict_eq z x = false) arr.
Proof.
  induction arr as [|y r IH]; simpl; [constructor|].
  destruct (strict_eq y x) eqn:E; [lia|].
  destruct (Z.ltb_spec (indexOf r x) 0) as [Hlt|Hge]; [|lia].
  intros _. constructor; auto.
Qed.

Lemma splice1_in_range (arr : list value) (i : Z) :
  0 <= i < Z.of_nat (length arr) -> splice1 arr i = delete (Z.to_nat i) arr.
Proof.
  intros Hi. unfold splice1.
  destruct (Z.ltb_spec i 0); [lia|].
  rewrite Z.min_l by lia. reflexivity.
Qed.

Lemma splice1_indexOf (before after : list value) (y : value) (i : Z) :
  Z.to_nat i = length before -> 0 <= i ->
  splice1 (before ++ y :: after) i = before ++ after.
Proof.
  intros Hlen Hi. rewrite splice1_in_range.
  - rewrite Hlen. apply delete_middle.
  - rewrite length_app. simpl. lia.
Qed.

Lemma splice1_subseteq (arr : list value) (i : Z) : splice1 arr i ⊆ arr.
Proof.
  unfold splice1. apply list_subseteq_delete.
Qed.

Lemma pop_snoc (arr : list value) (x : value) : pop (arr ++ [x]) = (x, arr).
Proof. unfold pop. rewrite reverse_snoc. rewrite reverse_involutive. reflexivity. Qed.

Lemma pop_nil : pop [] = (VUndefined, []).
Proof. reflexivity. Qed.

Lemma pop_length (arr : list value) :
  length (snd (pop arr)) = Nat.pred (length arr).
Proof.
  destruct (decide (arr = [])) as [->|Hne]; [reflexivity|].
  destruct (exists_last Hne) as (r & x & ->).
  rewrite pop_snoc. simpl. rewrite length_app. simpl. lia.
Qed.

Lemma pop_subseteq (arr : list value) : snd (pop arr) ⊆ arr.
Proof.
  destruct (decide (arr = [])) as [->|Hne]; [reflexivity|].
  destruct (exists_last Hne) as (r & x & ->).
  rewrite pop_snoc. simpl. intros y Hy. apply elem_of_app. by left.
Qed.

End ArrayFacts.

(** ** The data grid *)

Module DataGridFacts.
Import JS DataGrid ArrayFacts.

(** *** The store of array objects *)

Lemma wf_initialize (o : Options) : wf (initialize o).
Proof.
  unfold wf, initialize.
  cbn [store allItemIds selectedItemIds next]. repeat split.
  - done.
  - rewrite lookup_insert_eq. eauto.
  - rewrite lookup_insert_ne by done. rewrite lookup_singleton_eq. eauto.
  - intros l [x Hl].
    destruct (decide (l = 1%positive)) as [->|]; [lia|].
    rewrite lookup_insert_ne in Hl by done.
    destruct (decide (l = 2%positive)) as [->|]; [lia|].
    rewrite lookup_singleton_ne in Hl by done. done.
Qed.

Lemma wf_emit (st : State) (n : string) (a : list arg) : wf st -> wf (emit st n a).
Proof. intros H. exact H. Qed.

Lemma wf_mutate (st : State) (l : loc) (f : list value -> list value) :
  wf st -> wf (mutate st l f).
Proof.
  intros (Hne & Ha & Hs & Hn). unfold wf, mutate; simpl.
  repeat split; try done.
  - destruct (decide (l = allItemIds st)) as [->|];
      [rewrite lookup_alter_eq | rewrite lookup_alter_ne by done];
      [by apply fmap_is_Some | done].
  - destruct (decide (l = selectedItemIds st)) as [->|];
      [rewrite lookup_alter_eq | rewrite lookup_alter_ne by done];
      [by apply fmap_is_Some | done].
  - intros l' Hl'. apply Hn.
    destruct (decide (l = l')) as [->|].
    + rewrite lookup_alter_eq in Hl'. by apply fmap_is_Some in Hl'.
    + by rewrite lookup_alter_ne in Hl'.
Qed.

Lemma deref_mutate_eq (st : State) (l : loc) (f : list value -> list value) :
  is_Some (store st !! l) -> deref (mutate st l f) l = f (deref st l).
Proof.
  intros [xs E]. unfold deref, mutate; simpl.
  rewrite lookup_alter_eq, E. reflexivity.
Qed.

Lemma deref_mutate_ne (st : State) (l l' : loc) (f : list value -> list value) :
  l ≠ l' -> deref (mutate st l f) l' = deref st l'.
Proof.
  intros Hne. unfold deref, mutate; simpl.
  rewrite lookup_alter_ne by done. reflexivity.
Qed.

Lemma selected_mutate (st : State) (f : list value -> list value) :
  wf st -> selected (mutate st (selectedItemIds st) f) = f (selected st).
Proof. intros (_ & _ & Hs & _). by apply deref_mutate_eq. Qed.

Lemma loaded_mutate (st : State) (f : list value -> list value) :
  wf st -> loaded (mutate st (selectedItemIds st) f) = loaded st.
Proof. intros (Hne & _). by apply deref_mutate_ne. Qed.

(** A new array object is none of the old ones, and the old ones keep
    their elements. *)
Lemma alloc_fresh (st : State) (xs : list value) :
  wf st ->
  fst (alloc st xs) ≠ allItemIds st /\ fst (alloc st xs) ≠ selectedItemIds st.
Proof.
  intros (_ & Ha & Hs & Hn). simpl.
  apply Hn in Ha. apply Hn in Hs. split; lia.
Qed.

Lemma deref_alloc_new (st : State) (xs : list value) :
  deref (snd (alloc st xs)) (fst (alloc st xs)) = xs.
Proof. unfold deref; simpl. by rewrite lookup_insert_eq. Qed.

Lemma deref_alloc_old (st : State) (xs : list value) (l : loc) :
  is_Some (store st !! l) -> wf st -> deref (snd (alloc st xs)) l = deref st l.
Proof.
  intros Hl (_ & _ & _ & Hn). unfold deref; simpl.
  rewrite lookup_insert_ne; [done|]. apply Hn in Hl. lia.
Qed.

Lemma wf_alloc_selected (st : State) (xs : list value) :
  wf st ->
  wf (with_ids (snd (alloc st xs)) (allItemIds st) (fst (alloc st xs))).
Proof.
  intros Hwf. pose proof (alloc_fresh st xs Hwf) as [Hna Hns].
  destruct Hwf as (Hne & Ha & Hs & Hn).
  unfold wf; simpl in *. repeat split.
  - congruence.
  - rewrite lookup_insert_ne by done. done.
  - rewrite lookup_insert_eq. eauto.
  - intros l Hl. destruct (decide (next st = l)) as [<-|]; [lia|].
    rewrite lookup_insert_ne in Hl by done. apply Hn in Hl. lia.
Qed.

Lemma wf_alloc_loaded (st : State) (xs : list value) :
  wf st ->
  wf (with_ids (snd (alloc st xs)) (fst (alloc st xs)) (selectedItemIds st)).
Proof.
  intros Hwf. pose proof (alloc_fresh st xs Hwf) as [Hna Hns].
  destruct Hwf as (Hne & Ha & Hs & Hn).
  unfold wf; simpl in *. repeat split.
  - congruence.
  - rewrite lookup_insert_eq. eauto.
  - rewrite lookup_insert_ne by done. done.
  - intros l Hl. destruct (decide (next st = l)) as [<-|]; [lia|].
    rewrite lookup_insert_ne in Hl by done. apply Hn in Hl. lia.
Qed.

(** *** selectItem *)

Lemma selected_emit (st : State) (n : string) (a : list arg) :
  selected (emit st n a) = selected st.
Proof. reflexivity. Qed.

Lemma loaded_emit (st : State) (n : string) (a : list arg) :
  loaded (emit st n a) = loaded st.
Proof. reflexivity. Qed.

(** The elements [selectItem] leaves in [this.selectedItemIds]. *)
Lemma selectItem_selected (st : State) (ev : SelectClick) :
  wf st ->
  selected (selectItem st ev) =
    if strict_eq (input_type ev) (VStr "checkbox") then
      if -1 <? indexOf (selected st) (row_id ev)
      then splice1 (selected st) (indexOf (selected st) (row_id ev))
      else if truthy (row_id ev) then selected st ++ [row_id ev] else selected st
    else if strict_eq (input_type ev) (VStr "radio") then
      if truthy (row_id ev)
      then snd (pop (selected st)) ++ [row_id ev]
      else snd (pop (selected st))
    else selected st.
Proof.
  intros Hwf. unfold selectItem.
  destruct (strict_eq (input_type ev) (VStr "checkbox")).
  - destruct (-1 <? indexOf (selected st) (row_id ev)).
    + rewrite selected_emit. by rewrite selected_mutate.
    + destruct (truthy (row_id ev)); [|reflexivity].
      rewrite selected_emit. by rewrite selected_mutate.
  - destruct (strict_eq (input_type ev) (VStr "radio")); [|reflexivity].
    set (st1 := mutate st (selectedItemIds st) (fun a => snd (pop a))).
    assert (Hwf1 : wf st1) by by apply wf_mutate.
    assert (H1 : selected st1 = snd (pop (selected st)))
      by by (unfold st1; rewrite selected_mutate).
    destruct (truthy (fst (pop (selected st))) && gt (fst (pop (selected st))) (-1)).
    + destruct (truthy (row_id ev)).
      * rewrite selected_emit.
        change (selectedItemIds (emit st1 ITEM_DESELECT [AVal (fst (pop (selected st)))]))
          with (selectedItemIds st1).
        rewrite (selected_mutate (emit st1 _ _)); [|by apply wf_emit].
        rewrite selected_emit, H1. reflexivity.
      * rewrite !selected_emit. exact H1.
    + destruct (truthy (row_id ev)).
      * rewrite selected_emit, selected_mutate by done. by rewrite H1.
      * rewrite selected_emit. exact H1.
Qed.

(** [selectItem] never writes [this.allItemIds]. *)
Lemma selectItem_loaded (st : State) (ev : SelectClick) :
  wf st -> loaded (selectItem st ev) = loaded st.
Proof.
  intros Hwf. unfold selectItem.
  destruct (strict_eq (input_type ev) (VStr "checkbox")).
  - destruct (-1 <? indexOf (selected st) (row_id ev)).
    + rewrite loaded_emit. by rewrite loaded_mutate.
    + destruct (truthy (row_id ev)); [|reflexivity].
      rewrite loaded_emit. by rewrite loaded_mutate.
  - destruct (strict_eq (input_type ev) (VStr "radio")); [|reflexivity].
    set (st1 := mutate st (selectedItemIds st) (fun a => snd (pop a))).
    assert (Hwf1 : wf st1) by by apply wf_mutate.
    assert (H1 : loaded st1 = loaded st)
      by by (unfold st1; rewrite loaded_mutate).
    destruct (truthy (fst (pop (selected st))) && gt (fst (pop (selected st))) (-1)).
    + destruct (truthy (row_id ev)).
      * rewrite loaded_emit.
        change (selectedItemIds (emit st1 ITEM_DESELECT [AVal (fst (pop (selected st)))]))
          with (selectedItemIds st1).
        rewrite (loaded_mutate (emit st1 _ _)); [|by apply wf_emit].
        rewrite loaded_emit. exact H1.
      * rewrite !loaded_emit. exact H1.
    + destruct (truthy (row_id ev)).
      * rewrite loaded_emit, loaded_mutate by done. exact H1.
      * rewrite loaded_emit. exact H1.
Qed.

Lemma selectItem_wf (st : State) (ev : SelectClick) :
  wf st -> wf (selectItem st ev).
Proof.
  intros Hwf. unfold selectItem.
  repeat match goal with
         | |- wf (if ?c then _ else _) => destruct c
         | |- wf (emit _ _ _) => apply wf_emit
         | |- wf (mutate _ _ _) => apply wf_mutate
         end; done.
Qed.

(** *** selectAllItems, resetItemSelection and removeRow *)

Ltac fields :=
  cbn [store next allItemIds selectedItemIds emitted data options
       sort_attribute sort_direction logged requests fst snd].

Ltac open_state :=
  unfold selected, loaded, deref, emit, with_ids, alloc, with_store; fields.

(** What [selectAllItems] does to the two arrays and what it emits. *)
Lemma selectAllItems_effect (compare : list value -> list value -> bool)
    (st : State) :
  wf st ->
  let st' := selectAllItems compare st in
  wf st' /\
  allItemIds st' = allItemIds st /\
  loaded st' = loaded st /\
  selectedItemIds st' ≠ selectedItemIds st /\
  (if compare (selected st) (loaded st)
   then selected st' = [] /\
        emitted st' =
          emitted st ++ [{| ev_name := ALL_DESELECT; ev_args := [AVal VNull] |}]
   else selected st' = loaded st /\
        selectedItemIds st' ≠ allItemIds st' /\
        emitted st' =
          emitted st ++
          [{| ev_name := ALL_SELECT; ev_args := [AArr (selectedItemIds st')] |}]).
Proof.
  intros Hwf st'. subst st'. unfold selectAllItems.
  pose proof (alloc_fresh st [] Hwf) as [Hna Hns]. simpl in Hna, Hns.
  pose proof Hwf as (Hne & Ha & Hs & Hn).
  destruct (compare (selected st) (loaded st)).
  - split; [apply wf_emit, (wf_alloc_selected st [] Hwf)|].
    open_state. rewrite lookup_insert_eq, lookup_insert_ne by done.
    repeat split; done.
  - split; [apply wf_emit, (wf_alloc_selected st (loaded st) Hwf)|].
    open_state. rewrite lookup_insert_eq, lookup_insert_ne by done.
    repeat split; done.
Qed.

Lemma resetItemSelection_effect (st : State) :
  wf st ->
  let st' := resetItemSelection st in
  wf st' /\ selected st' = [] /\ loaded st' = [] /\
  emitted st' = emitted st.
Proof.
  intros Hwf st'. subst st'. unfold resetItemSelection.
  pose proof (wf_alloc_loaded st [] Hwf) as Hwf1.
  set (st2 := with_ids (snd (alloc st [])) (fst (alloc st [])) (selectedItemIds st)) in *.
  pose proof (wf_alloc_selected st2 [] Hwf1) as Hwf2.
  split; [exact Hwf2|].
  open_state. rewrite lookup_insert_eq.
  rewrite lookup_insert_ne by lia. rewrite lookup_insert_eq. done.
Qed.

(** [removeRow] throws only for [null]. *)
Lemma removeRow_returns (st : State) (a : RemoveArg) :
  a ≠ RemoveValue VNull -> is_Some (removeRow st a).
Proof.
  intros Ha. unfold removeRow.
  destruct a as [rid|v]; [simpl; eauto|].
  destruct v; simpl; eauto. done.
Qed.

Lemma removeRow_effect (st st' : State) (a : RemoveArg) :
  wf st -> removeRow st a = Some st' ->
  wf st' /\
  allItemIds st' = allItemIds st /\
  loaded st' = loaded st /\
  emitted st' =
    emitted st ++ [{| ev_name := ROW_REMOVED; ev_args := [remove_arg a] |}] /\
  selected st' =
    (if 0 <=? indexOf (selected st) (removed_id a)
     then splice1 (selected st) (indexOf (selected st) (removed_id a))
     else selected st).
Proof.
  intros Hwf Hrm. unfold removeRow in Hrm.
  assert (Hid : match a with
                | RemoveClick rid => Some rid
                | RemoveValue VNull => None
                | RemoveValue v => Some v
                end = Some (removed_id a) \/ a = RemoveValue VNull).
  { destruct a as [rid|v]; [by left|]. destruct v; auto. }
  destruct Hid as [Hid| ->]; [|discriminate].
  rewrite Hid in Hrm. simpl in Hrm. injection Hrm as <-.
  destruct (0 <=? indexOf (selected st) (removed_id a)).
  - split; [by apply wf_emit, wf_mutate|].
    rewrite loaded_emit, selected_emit, loaded_mutate, selected_mutate by done.
    done.
  - done.
Qed.

(** *** prepareTableRows *)

Lemma wf_prepareTableRow (st : State) (row : Row) :
  wf st -> wf (prepareTableRow st row).
Proof.
  intros Hwf. unfold prepareTableRow.
  destruct (truthy (template_row (options st))); [done|].
  destruct (truthy (prop row "id")); [by apply wf_mutate|done].
Qed.

Lemma wf_foldl_prepareTableRow (rows : list Row) (st : State) :
  wf st -> wf (foldl prepareTableRow st rows).
Proof.
  revert st. induction rows as [|r rows IH]; intros st Hwf; simpl; [done|].
  apply IH. by apply wf_prepareTableRow.
Qed.

Lemma wf_prepareTableRows (st : State) : wf st -> wf (prepareTableRows st).
Proof.
  intros Hwf. unfold prepareTableRows.
  pose proof (wf_alloc_loaded st [] Hwf) as Hwf1.
  set (st2 := with_ids (snd (alloc st [])) (fst (alloc st [])) (selectedItemIds st)) in *.
  change (wf match data st2 with
             | Some d =>
                 match items d, embedded d with
                 | Some rows, _ => foldl prepareTableRow st2 rows
                 | None, Some rows => foldl prepareTableRow st2 rows
                 | None, None => st2
                 end
             | None => st2
             end).
  destruct (data st2) as [d|]; [|done].
  destruct (items d), (embedded d); try done; by apply wf_foldl_prepareTableRow.
Qed.

Lemma wf_with_data (st : State) (d : option Data) : wf st -> wf (with_data st d).
Proof. intros H. exact H. Qed.

Lemma wf_grid_of (rows : list Row) : wf (Samples.grid_of rows).
Proof.
  unfold Samples.grid_of. apply wf_prepareTableRows, wf_with_data, wf_initialize.
Qed.

(** *** Selected ids and loaded ids *)

(** C1, as amended: selectAllItems, removeRow and resetItemSelection leave
    every id of selectedItemIds among the ids of allItemIds when that held
    before, and so does selectItem whenever the id of the clicked row is
    itself an element of allItemIds. *)
Theorem C1_selected_subset_when_row_loaded
    (compare : list value -> list value -> bool) (st : State) :
  wf st -> selected st ⊆ loaded st ->
  (forall ev, row_id ev ∈ loaded st ->
              selected (selectItem st ev) ⊆ loaded (selectItem st ev)) /\
  selected (selectAllItems compare st) ⊆ loaded (selectAllItems compare st) /\
  (forall a, selected (after st (removeRow st a))
             ⊆ loaded (after st (removeRow st a))) /\
  selected (resetItemSelection st) ⊆ loaded (resetItemSelection st).
Proof.
  intros Hwf Hsub. repeat split.
  - intros ev Hin.
    rewrite selectItem_selected, selectItem_loaded by done.
    pose proof (splice1_subseteq (selected st)
                  (indexOf (selected st) (row_id ev))) as Hsp.
    pose proof (pop_subseteq (selected st)) as Hpop.
    assert (Hpush : forall arr : list value,
               arr ⊆ loaded st -> arr ++ [row_id ev] ⊆ loaded st).
    { intros arr Harr x [Hx|Hx]%elem_of_app; [by apply Harr|].
      by apply list_elem_of_singleton in Hx as ->. }
    repeat match goal with |- context [if ?c then _ else _] => destruct c end;
      try apply Hpush; try done; by etrans.
  - destruct (selectAllItems_effect compare st Hwf) as (_ & _ & Hl & _ & Hc).
    rewrite Hl. destruct (compare (selected st) (loaded st)).
    + destruct Hc as [-> _]. apply list_subseteq_nil.
    + destruct Hc as [-> _]. done.
  - intros a. destruct (removeRow st a) as [st'|] eqn:E; simpl; [|done].
    destruct (removeRow_effect st st' a Hwf E) as (_ & _ & -> & _ & ->).
    pose proof (splice1_subseteq (selected st)
                  (indexOf (selected st) (removed_id a))) as Hsp.
    destruct (0 <=? indexOf (selected st) (removed_id a)); [by etrans|done].
  - destruct (resetItemSelection_effect st Hwf) as (_ & -> & -> & _). done.
Qed.

Lemma C1_selected_subset_when_row_loaded_witness :
  (wf Samples.grid_123 /\
   selected Samples.grid_123 ⊆ loaded Samples.grid_123) /\
  selected (selectItem Samples.grid_123 (Samples.checkbox_click (VNum 2)))
  ⊆ loaded (selectItem Samples.grid_123 (Samples.checkbox_click (VNum 2))).
Proof.
  assert (Hwf : wf Samples.grid_123) by apply wf_grid_of.
  assert (Hsub : selected Samples.grid_123 ⊆ loaded Samples.grid_123).
  { replace (selected Samples.grid_123) with (@nil value)
      by (vm_compute; reflexivity).
    apply list_subseteq_nil. }
  split; [by split|].
  apply (C1_selected_subset_when_row_loaded Samples.compare_elements
           Samples.grid_123 Hwf Hsub).
  replace (loaded Samples.grid_123) with [VNum 1; VNum 2; VNum 3]
    by (vm_compute; reflexivity).
  simpl. apply elem_of_cons. right. apply elem_of_cons. by left.
Defined.

(** C1 as stated fails: a row whose id is the text abc is loaded as NaN,
    and ticking its check box selects the text abc, which is not an
    element of allItemIds. *)
Lemma C1_counterexample :
  wf Samples.grid_abc /\
  loaded Samples.grid_abc = [VNaN] /\
  selected Samples.grid_abc ⊆ loaded Samples.grid_abc /\
  selected (selectItem Samples.grid_abc (Samples.checkbox_click (VStr "abc")))
    = [VStr "abc"] /\
  ~ (selected (selectItem Samples.grid_abc (Samples.checkbox_click (VStr "abc")))
     ⊆ loaded (selectItem Samples.grid_abc (Samples.checkbox_click (VStr "abc")))).
Proof.
  assert (Hl : loaded Samples.grid_abc = [VNaN]) by (vm_compute; reflexivity).
  assert (Hs : selected Samples.grid_abc = []) by (vm_compute; reflexivity).
  assert (Hs' : selected (selectItem Samples.grid_abc
                            (Samples.checkbox_click (VStr "abc")))
                = [VStr "abc"]) by (vm_compute; reflexivity).
  assert (Hl' : loaded (selectItem Samples.grid_abc
                          (Samples.checkbox_click (VStr "abc")))
                = [VNaN]) by (vm_compute; reflexivity).
  split; [apply wf_grid_of|]. split; [exact Hl|].
  split; [rewrite Hs; apply list_subseteq_nil|].
  split; [exact Hs'|].
  rewrite Hs', Hl'. intros Hsub.
  specialize (Hsub (VStr "abc")). rewrite !list_elem_of_singleton in Hsub.
  specialize (Hsub eq_refl). discriminate.
Qed.

(** *** Radio selection *)

Lemma length_le_1_pop (arr : list value) :
  (length arr <= 1)%nat -> snd (pop arr) = [].
Proof.
  intros Hlen. pose proof (pop_length arr) as Hp.
  destruct (snd (pop arr)); [done|]. simpl in Hp. lia.
Qed.

(** C10, as amended: on a radio input, selectItem pops the previous
    selection, emits item.deselect for it when it is truthy and greater
    than -1, and pushes the id of the clicked row when that id is truthy;
    an array of at most one id before holds at most one id afterwards. *)
Theorem C10_radio_single_selection (st : State) (ev : SelectClick) :
  wf st ->
  input_type ev = VStr "radio" ->
  (length (selected st) <= 1)%nat ->
  let old := fst (pop (selected st)) in
  let st' := selectItem st ev in
  (length (selected st') <= 1)%nat /\
  selected st' = (if truthy (row_id ev) then [row_id ev] else []) /\
  emitted st' =
    emitted st
    ++ (if truthy old && gt old (-1)
        then [{| ev_name := ITEM_DESELECT; ev_args := [AVal old] |}]
        else [])
    ++ [{| ev_name := ITEM_SELECT;
           ev_args := [if truthy (row_id ev) then AVal (row_id ev) else ADomEvent] |}].
Proof.
  intros Hwf Hty Hlen old st'.
  assert (Hsel : selected st' = if truthy (row_id ev) then [row_id ev] else []).
  { subst st'. rewrite selectItem_selected by done. rewrite Hty.
    change (strict_eq (VStr "radio") (VStr "checkbox")) with false.
    change (strict_eq (VStr "radio") (VStr "radio")) with true.
    cbv iota. rewrite length_le_1_pop by done.
    by destruct (truthy (row_id ev)). }
  split; [rewrite Hsel; destruct (truthy (row_id ev)); simpl; lia|].
  split; [exact Hsel|].
  subst st' old. unfold selectItem. rewrite Hty.
  change (strict_eq (VStr "radio") (VStr "checkbox")) with false.
  change (strict_eq (VStr "radio") (VStr "radio")) with true.
  cbv iota.
  destruct (truthy (fst (pop (selected st))) && gt (fst (pop (selected st))) (-1));
    destruct (truthy (row_id ev)); unfold emit, mutate, with_store; fields;
    by rewrite <- ?app_assoc.
Qed.

Lemma C10_radio_single_selection_witness :
  let st := selectItem Samples.grid_123 (Samples.radio_click (VNum 1)) in
  let st' := selectItem st (Samples.radio_click (VNum 2)) in
  (wf st /\
   DataGrid.input_type (Samples.radio_click (VNum 2)) = VStr "radio" /\
   (length (selected st) <= 1)%nat) /\
  selected st = [VNum 1] /\
  selected st' = [VNum 2] /\
  emitted st' =
    emitted st
    ++ [{| ev_name := ITEM_DESELECT; ev_args := [AVal (VNum 1)] |};
        {| ev_name := ITEM_SELECT; ev_args := [AVal (VNum 2)] |}].
Proof.
  cbv zeta.
  assert (Hwf : wf (selectItem Samples.grid_123 (Samples.radio_click (VNum 1))))
    by apply selectItem_wf, wf_grid_of.
  assert (Hlen : (length (selected (selectItem Samples.grid_123
                                      (Samples.radio_click (VNum 1)))) <= 1)%nat)
    by (vm_compute; lia).
  split; [split; [exact Hwf | split; [reflexivity | exact Hlen]]|].
  split; [vm_compute; reflexivity|].
  destruct (C10_radio_single_selection
              (selectItem Samples.grid_123 (Samples.radio_click (VNum 1)))
              (Samples.radio_click (VNum 2)) Hwf eq_refl Hlen)
    as (_ & Hsel & Hem).
  split; [exact Hsel|].
  rewrite Hem. vm_compute. reflexivity.
Defined.

(** C10 as stated fails: with the text abc selected, a click on the radio
    input of another row pops abc and emits no item.deselect for it. *)
Lemma C10_counterexample :
  let st := selectItem Samples.grid_abc (Samples.radio_click (VStr "abc")) in
  let st' := selectItem st (Samples.radio_click (VStr "def")) in
  selected st = [VStr "abc"] /\
  selected st' = [VStr "def"] /\
  emitted st' =
    emitted st ++ [{| ev_name := ITEM_SELECT; ev_args := [AVal (VStr "def")] |}] /\
  {| ev_name := ITEM_DESELECT; ev_args := [AVal (VStr "abc")] |} ∉ emitted st'.
Proof.
  cbv zeta.
  assert (He : emitted (selectItem
                 (selectItem Samples.grid_abc (Samples.radio_click (VStr "abc")))
                 (Samples.radio_click (VStr "def")))
               = [{| ev_name := ITEM_SELECT; ev_args := [AVal (VStr "abc")] |};
                  {| ev_name := ITEM_SELECT; ev_args := [AVal (VStr "def")] |}])
    by (vm_compute; reflexivity).
  split; [vm_compute; reflexivity|].
  split; [vm_compute; reflexivity|].
  split; [vm_compute; reflexivity|].
  rewrite He. intros Hin.
  apply elem_of_cons in Hin as [Hin|Hin]; [discriminate|].
  apply elem_of_cons in Hin as [Hin|Hin]; [discriminate|].
  by apply elem_of_nil in Hin.
Qed.

(** *** Row removal *)

(** For every argument but [null], [removeRow] returns; it takes the first
    element strictly equal to the id out of selectedItemIds, or leaves the
    array as it is when there is none, keeps allItemIds and emits
    [ROW_REMOVED] once. *)
Lemma removeRow_frame (st : State) (a : RemoveArg) :
  wf st -> a ≠ RemoveValue VNull ->
  exists st',
    removeRow st a = Some st' /\
    allItemIds st' = allItemIds st /\
    loaded st' = loaded st /\
    emitted st' =
      emitted st ++ [{| ev_name := ROW_REMOVED; ev_args := [remove_arg a] |}] /\
    ((exists before y after,
         selected st = before ++ y :: after /\
         strict_eq y (removed_id a) = true /\
         Forall (fun z => strict_eq z (removed_id a) = false) before /\
         selected st' = before ++ after)
     \/ (Forall (fun z => strict_eq z (removed_id a) = false) (selected st) /\
         selected st' = selected st)).
Proof.
  intros Hwf Hne. destruct (removeRow_returns st a Hne) as [st' E].
  exists st'. split; [exact E|].
  destruct (removeRow_effect st st' a Hwf E) as (_ & Ha & Hl & He & Hs).
  repeat split; try done.
  destruct (Z.leb_spec 0 (indexOf (selected st) (removed_id a))) as [Hge|Hlt].
  - left. destruct (indexOf_found _ _ Hge) as (b & y & r & Hsplit & Hy & Hb & Hlen).
    exists b, y, r. repeat split; try done.
    rewrite Hs. rewrite Hsplit at 1. by apply splice1_indexOf.
  - right. split; [by apply indexOf_absent|done].
Qed.

(** C7: on the grid with rows 1, 2 and 3 all selected, removing row 2
    leaves 1 and 3 selected and allItemIds as it was, and emits one event;
    the name of that event is the text husky.datagridrow.removed, not the
    documented husky.datagrid.row.removed. *)
Theorem C7_removeRow_emits_undotted_name :
  let st := selectAllItems Samples.compare_elements Samples.grid_123 in
  exists st',
    removeRow st (RemoveValue (VNum 2)) = Some st' /\
    selected st' = [VNum 1; VNum 3] /\
    loaded st' = [VNum 1; VNum 2; VNum 3] /\
    ev_name <$> drop (length (emitted st)) (emitted st')
      = ["husky.datagridrow.removed"] /\
    ("husky.datagrid.row.removed" ∉ (ev_name <$> emitted st')).
Proof.
  cbv zeta. eexists. split; [vm_compute; reflexivity|].
  split; [vm_compute; reflexivity|].
  split; [vm_compute; reflexivity|].
  split; [vm_compute; reflexivity|].
  vm_compute. intros Hin.
  apply elem_of_cons in Hin as [Hin|Hin]; [discriminate|].
  apply elem_of_cons in Hin as [Hin|Hin]; [discriminate|].
  by apply elem_of_nil in Hin.
Qed.

(** *** Select all *)

(** C5: on the grid with rows 1, 2 and 3, a first click on the select-all
    box selects a copy of allItemIds and a second click empties the
    selection; the events emitted are named husky.datagridall.select and
    husky.datagridall.deselect, not the documented husky.datagrid.all.select
    and husky.datagrid.all.deselect. *)
Theorem C5_selectAllItems_emits_undotted_names :
  let st1 := selectAllItems Samples.compare_elements Samples.grid_123 in
  let st2 := selectAllItems Samples.compare_elements st1 in
  selected st1 = [VNum 1; VNum 2; VNum 3] /\
  selectedItemIds st1 ≠ allItemIds st1 /\
  selected st2 = [] /\
  emitted st2 =
    [{| ev_name := "husky.datagridall.select";
        ev_args := [AArr (selectedItemIds st1)] |};
     {| ev_name := "husky.datagridall.deselect"; ev_args := [AVal VNull] |}] /\
  ("husky.datagrid.all.select" ∉ (ev_name <$> emitted st2)) /\
  ("husky.datagrid.all.deselect" ∉ (ev_name <$> emitted st2)).
Proof.
  cbv zeta.
  split; [vm_compute; reflexivity|].
  split; [vm_compute; discriminate|].
  split; [vm_compute; reflexivity|].
  split; [vm_compute; reflexivity|].
  split; vm_compute; intros Hin;
    (apply elem_of_cons in Hin as [Hin|Hin]; [discriminate|]);
    (apply elem_of_cons in Hin as [Hin|Hin]; [discriminate|]);
    by apply elem_of_nil in Hin.
Qed.

(** *** Page navigation *)

Lemma pages_of_items (g : Z -> PageItem) (l : list Z) :
  (forall i, li_page (g i) = i) -> li_page <$> (g <$> l) = l.
Proof.
  intros Hg. induction l as [|x l IH]; [done|].
  by rewrite !fmap_cons, Hg, IH.
Qed.

(** While the current page is at most the number of pages displayed, the
    window is 1 .. [d]. *)
Lemma pagination_window_low (p d : Z) :
  1 <= p <= d -> li_page <$> paginationPageNavigation p d = seqZ 1 d.
Proof.
  intros Hpd. unfold paginationPageNavigation.
  rewrite length_fmap, length_seqZ, Z2Nat.id by lia.
  replace (d - (d - p + 1)) with (p - 1) by lia.
  replace (p - (p - 1)) with 1 by lia.
  rewrite fmap_app. rewrite (pages_of_items _ (seqZ p _)) by (intros; reflexivity).
  destruct (Z.ltb_spec 0 (p - 1)).
  - rewrite pages_of_items by (intros; reflexivity).
    replace d with ((p - 1) + (d - p + 1)) at 2 by lia.
    rewrite (seqZ_app 1 (p - 1) (d - p + 1)) by lia. do 2 f_equal. lia.
  - assert (p = 1) as -> by lia. simpl. f_equal. lia.
Qed.

(** Within that window exactly the entry of the current page is selected. *)
Lemma pagination_selected_entry (p d : Z) (it : PageItem) :
  it ∈ paginationPageNavigation p d ->
  ("is-selected" ∈ li_class it <-> li_page it = p).
Proof.
  unfold paginationPageNavigation. rewrite elem_of_app. intros [Hin|Hin].
  - destruct (0 <? _); [|by apply elem_of_nil in Hin].
    apply list_elem_of_fmap in Hin as (i & -> & Hi). simpl.
    apply elem_of_seqZ in Hi.
    rewrite length_fmap, length_seqZ in Hi.
    rewrite elem_of_cons, elem_of_nil. split; [intros [?|?]; done|]. lia.
  - apply list_elem_of_fmap in Hin as (i & -> & Hi). simpl.
    case_bool_decide; subst.
    + split; [done|]. intros _. apply elem_of_cons. right. apply elem_of_cons. by left.
    + rewrite elem_of_cons, elem_of_nil. split; [intros [?|?]; done|done].
Qed.

(** Beyond it, the window is the [d] pages before the current one, and no
    entry is selected. *)
Lemma pagination_window_high (p d : Z) :
  1 <= d < p ->
  paginationPageNavigation p d =
    (fun i => {| li_class := ["page"]; li_page := i |}) <$> seqZ (p - d) d.
Proof.
  intros Hpd. unfold paginationPageNavigation.
  rewrite (seqZ_nil p) by lia. rewrite fmap_nil, app_nil_r.
  change (Z.of_nat (length (@nil PageItem))) with 0. rewrite Z.sub_0_r.
  destruct (Z.ltb_spec 0 d); [done|lia].
Qed.

(** C2: on page 6 with 5 pages displayed the navigation holds the pages
    1 to 5; page 6 is not among them and no entry carries is-selected. *)
Theorem C2_pagination_window_misses_current_page :
  paginationPageNavigation 6 5 =
    [ {| li_class := ["page"]; li_page := 1 |};
      {| li_class := ["page"]; li_page := 2 |};
      {| li_class := ["page"]; li_page := 3 |};
      {| li_class := ["page"]; li_page := 4 |};
      {| li_class := ["page"]; li_page := 5 |} ] /\
  (6 ∉ (li_page <$> paginationPageNavigation 6 5)) /\
  Forall (fun it => "is-selected" ∉ li_class it) (paginationPageNavigation 6 5).
Proof.
  assert (E : paginationPageNavigation 6 5 =
    [ {| li_class := ["page"]; li_page := 1 |};
      {| li_class := ["page"]; li_page := 2 |};
      {| li_class := ["page"]; li_page := 3 |};
      {| li_class := ["page"]; li_page := 4 |};
      {| li_class := ["page"]; li_page := 5 |} ]) by (vm_compute; reflexivity).
  split; [exact E|]. rewrite E. split.
  - simpl. rewrite !elem_of_cons, elem_of_nil. lia.
  - repeat constructor; simpl; rewrite elem_of_cons, elem_of_nil;
      intros [?|?]; done.
Qed.

(** *** getUrl *)

(** [has_question_mark] finds a question mark exactly when there is one. *)
Lemma has_question_mark_spec (s : string) :
  has_question_mark s = true <-> exists a b, s = a +:+ "?" +:+ b.
Proof.
  induction s as [|c s IH]; simpl.
  - split; [discriminate|]. intros (a & b & E). by destruct a.
  - destruct (Ascii.eqb_spec c "?"%char) as [->|Hc].
    + split; [|done]. intros _. by exists EmptyString, s.
    + rewrite IH. split.
      * intros (a & b & ->). by exists (String c a), b.
      * intros (a & b & E). destruct a as [|c' a]; simpl in E.
        -- injection E as -> _. done.
        -- injection E as -> ->. by exists a, b.
Qed.

(** C9: getUrl returns the url of the parameters as it is when the links
    of the data are loaded, when pagination is off or when no page size is
    set; otherwise it appends the page size, after an ampersand when the url
    holds a question mark and after a question mark when it holds none, and
    then the page exactly when the page is greater than 1. *)
Theorem C9_getUrl_appends_page_size (st : State) (params : Params) :
  let o := options st in
  (links_loaded st = true \/ pagination o = false \/ truthy (pageSize o) = false ->
   getUrl st params = url params) /\
  (links_loaded st = false -> pagination o = true -> truthy (pageSize o) = true ->
   exists delimiter,
     ((delimiter = "&" /\ exists a b, url params = a +:+ "?" +:+ b) \/
      (delimiter = "?" /\ ~ exists a b, url params = a +:+ "?" +:+ b)) /\
     let u := url params +:+ delimiter +:+ "pageSize=" +:+ toString (pageSize o) in
     getUrl st params =
       (if gt (params_page params) 1
        then u +:+ "&page=" +:+ toString (params_page params)
        else u)).
Proof.
  cbv zeta. unfold getUrl. split.
  - intros [-> | [-> | H]]; [done| |].
    + by destruct (links_loaded st).
    + rewrite H, andb_false_r. by destruct (links_loaded st).
  - intros -> -> ->. simpl.
    destruct (has_question_mark (url params)) eqn:Hq.
    + exists "&". split; [|done]. left. split; [done|].
      by apply has_question_mark_spec.
    + exists "?". split; [|done]. right. split; [done|].
      rewrite <- has_question_mark_spec. by rewrite Hq.
Qed.

Lemma C9_getUrl_appends_page_size_witness :
  let st := initialize Samples.paged in
  let params := Samples.params_of "/api/items?flat=true" (VNum 3) in
  (links_loaded st = false /\
   pagination (options st) = true /\
   truthy (pageSize (options st)) = true) /\
  exists delimiter,
    ((delimiter = "&" /\ exists a b, url params = a +:+ "?" +:+ b) \/
     (delimiter = "?" /\ ~ exists a b, url params = a +:+ "?" +:+ b)) /\
    getUrl st params =
      (url params +:+ delimiter +:+ "pageSize=10") +:+ "&page=3".
Proof.
  cbv zeta. split; [repeat split; reflexivity|].
  exact (proj2 (C9_getUrl_appends_page_size (initialize Samples.paged)
                  (Samples.params_of "/api/items?flat=true" (VNum 3)))
           eq_refl eq_refl eq_refl).
Defined.

Example getUrl_first_page :
  getUrl (initialize Samples.paged) (Samples.params_of "/api/items" VUndefined)
  = "/api/items?pageSize=10".
Proof. vm_compute. reflexivity. Qed.

Example getUrl_third_page :
  getUrl (initialize Samples.paged)
    (Samples.params_of "/api/items?flat=true" (VNum 3))
  = "/api/items?flat=true&pageSize=10&page=3".
Proof. vm_compute. reflexivity. Qed.

Example getUrl_named_page :
  getUrl (initialize Samples.paged) (Samples.params_of "/api/items" (VStr "next"))
  = "/api/items?pageSize=10".
Proof. vm_compute. reflexivity. Qed.

(** *** Sorting *)

(** C4, as amended: a click on a header whose attribute is truthy and has a
    non-empty link of its own in data.links.sortable sets sort.attribute to
    the attribute, and sort.direction to desc when the span of the header
    carries the ascending class and to asc otherwise; a click changes
    nothing when the attribute is falsy, when its link is empty, or when
    data.links.sortable has no property of that name, neither of its own
    nor inherited from Object.prototype. *)
Theorem C4_changeSorting_toggles_direction
    (expand : string -> string -> value -> string)
    (st : State) (ev : SortClick) (d : Data) (l : Links) (m : gmap string string) :
  data st = Some d -> links d = Some l -> sortable l = Some m ->
  (forall t,
     truthy (attribute ev) = true ->
     m !! toString (attribute ev) = Some t -> t ≠ EmptyString ->
     exists st',
       changeSorting expand st ev = Some st' /\
       sort_attribute st' = attribute ev /\
       sort_direction st' =
         (if bool_decide (ascClass ∈ span_class ev) then VStr "desc" else VStr "asc")) /\
  (truthy (attribute ev) = false \/
   (m !! toString (attribute ev) = None /\
    inherited (toString (attribute ev)) = false) \/
   m !! toString (attribute ev) = Some EmptyString ->
   changeSorting expand st ev = Some st).
Proof.
  intros Hd Hl Hm. unfold changeSorting, sortable_link.
  rewrite Hd. simpl. rewrite Hl. simpl. rewrite Hm. simpl. split.
  - intros t -> -> Ht. simpl.
    destruct t as [|c t]; [done|]. simpl. eexists. split; [reflexivity|]. done.
  - intros [-> | [[-> _] | ->]]; [done| |]; by destruct (truthy (attribute ev)).
Qed.

Lemma C4_changeSorting_toggles_direction_witness :
  exists st',
    changeSorting Samples.expand_append
      (Samples.grid_sortable {[ "name" := "/api/items?sortBy=name&sortOrder=" ]})
      (Samples.header_click "name" [ascClass; "m-left-5"; "small-font"])
    = Some st' /\
    sort_attribute st' = VStr "name" /\
    sort_direction st' = VStr "desc".
Proof.
  exact (proj1 (C4_changeSorting_toggles_direction Samples.expand_append
                  (Samples.grid_sortable {[ "name" := "/api/items?sortBy=name&sortOrder=" ]})
                  (Samples.header_click "name" [ascClass; "m-left-5"; "small-font"])
                  _ _ _ eq_refl eq_refl eq_refl)
           "/api/items?sortBy=name&sortOrder=" eq_refl eq_refl
           ltac:(discriminate)).
Defined.

(** C4 as stated fails: the attribute name appears in data.links.sortable,
    with an empty link, and a click on its header sets neither field. *)
Lemma C4_counterexample :
  let m : gmap string string := {[ "name" := EmptyString ]} in
  let st := Samples.grid_sortable m in
  let ev := Samples.header_click "name" [] in
  is_Some (m !! "name") /\
  changeSorting Samples.expand_append st ev = Some st /\
  sort_attribute st = VUndefined /\
  sort_direction st = VUndefined.
Proof.
  cbv zeta. split; [rewrite lookup_singleton_eq; eauto|].
  split; [vm_compute; reflexivity|done].
Qed.

(** A first click sorts ascending; once [setHeaderClasses] has put the
    ascending class on the span, the next click sorts descending. *)
Example changeSorting_alternates :
  let m : gmap string string := {[ "name" := "/api/items?sortBy=name&sortOrder=" ]} in
  exists st1 st2 header span,
    changeSorting Samples.expand_append (Samples.grid_sortable m)
      (Samples.header_click "name" []) = Some st1 /\
    sort_direction st1 = VStr "asc" /\
    setHeaderClasses st1 = Some (header, span) /\
    changeSorting Samples.expand_append st1 (Samples.header_click "name" span)
      = Some st2 /\
    sort_direction st2 = VStr "desc" /\
    req_url <$> requests st2
      = ["/api/items?sortBy=name&sortOrder=asc";
         "/api/items?sortBy=name&sortOrder=desc"].
Proof.
  cbv zeta. do 4 eexists.
  split; [vm_compute; reflexivity|].
  split; [reflexivity|].
  split; [vm_compute; reflexivity|].
  split; [vm_compute; reflexivity|].
  split; vm_compute; reflexivity.
Qed.

End DataGridFacts.

(** ** The smart content *)

Module SmartContentFacts.
Import JS SmartContent.

(** *** renderContent *)

Lemma contentItems_length (l : list Item) (i visible : Z) :
  length (contentItems l i visible)
  = Z.to_nat (Z.min (Z.of_nat (length l)) (visible - i)).
Proof.
  revert i. induction l as [|it r IH]; intros i.
  - cbn [contentItems length]. lia.
  - cbn [contentItems length]. destruct (Z.ltb_spec i visible).
    + cbn [length]. rewrite IH. lia.
    + simpl. lia.
Qed.

Lemma contentItems_lookup (l : list Item) (i visible : Z) (k : nat) (li : ContentItem) :
  contentItems l i visible !! k = Some li ->
  exists it,
    l !! k = Some it /\
    li = {| dataId := item_id it; value_ := item_name it;
            num := i + Z.of_nat k + 1 |}.
Proof.
  revert i k. induction l as [|it r IH]; intros i k; [done|].
  cbn [contentItems]. destruct (Z.ltb_spec i visible); [|done].
  destruct k as [|k].
  - intros [= <-]. exists it. split; [done|]. do 2 f_equal. lia.
  - intros Hk. destruct (IH _ _ Hk) as (it' & Hit & ->).
    exists it'. split; [done|]. f_equal. lia.
Qed.

(** C6: with items, renderContent renders min(items.length, itemsVisible)
    entries (none when itemsVisible is negative), entry k showing the id
    and the name of item k and the number k + 1, and renders the footer;
    without items it renders the no-content template and the footer is not
    in the container. *)
Theorem C6_renderContent_visible_items (st : State) :
  (items st ≠ [] ->
   exists lis,
     content (renderContent st) = ItemsList lis /\
     length lis
     = Z.to_nat (Z.min (Z.of_nat (length (items st))) (itemsVisible st)) /\
     (forall k li, lis !! k = Some li ->
        exists it,
          items st !! k = Some it /\
          li = {| dataId := item_id it; value_ := item_name it;
                  num := Z.of_nat k + 1 |}) /\
     exists f, footer (renderContent st) = FooterAttached f) /\
  (items st = [] ->
   content (renderContent st) = NoContent "smart-content.nocontent-selected" /\
   forall f, footer (renderContent st) ≠ FooterAttached f).
Proof.
  unfold renderContent. split.
  - intros Hne. destruct (items st) as [|it r] eqn:E; [done|].
    change (negb (Z.of_nat (length (it :: r)) =? 0)) with true. cbv iota.
    exists (contentItems (it :: r) 0 (itemsVisible st)).
    split; [reflexivity|]. split.
    + rewrite contentItems_length. by rewrite Z.sub_0_r.
    + split; [|eexists; reflexivity].
      intros k li Hk. destruct (contentItems_lookup _ _ _ _ _ Hk) as (x & Hx & ->).
      exists x. split; [done|]. f_equal.
  - intros ->. simpl. unfold detachFooter. simpl.
    destruct (footer st); simpl; split; done.
Qed.

Lemma C6_renderContent_visible_items_witness :
  Samples.smart_seven.(items) ≠ [] /\
  exists lis,
    content (renderContent Samples.smart_seven) = ItemsList lis /\
    length lis = 5%nat.
Proof.
  assert (Hne : items Samples.smart_seven ≠ []) by discriminate.
  split; [exact Hne|].
  destruct (proj1 (C6_renderContent_visible_items Samples.smart_seven) Hne)
    as (lis & Hc & Hlen & _).
  exists lis. split; [exact Hc|exact Hlen].
Defined.

Example renderContent_seven :
  content (renderContent Samples.smart_seven)
  = ItemsList
      [ {| dataId := VNum 11; value_ := VStr "a"; num := 1 |};
        {| dataId := VNum 12; value_ := VStr "b"; num := 2 |};
        {| dataId := VNum 13; value_ := VStr "c"; num := 3 |};
        {| dataId := VNum 14; value_ := VStr "d"; num := 4 |};
        {| dataId := VNum 15; value_ := VStr "e"; num := 5 |} ] /\
  footer (renderContent Samples.smart_seven)
  = FooterAttached {| footer_visible := 5; footer_total := 7;
                      footer_toggler := Some ViewAll |}.
Proof. split; vm_compute; reflexivity. Qed.

Example toggleView_seven :
  itemsVisible (toggleView (renderContent Samples.smart_seven)) = 7 /\
  footer (toggleView (renderContent Samples.smart_seven))
  = FooterAttached {| footer_visible := 7; footer_total := 7;
                      footer_toggler := Some ViewLess |}.
Proof. split; vm_compute; reflexivity. Qed.

(** *** setURI and loadContent *)

Example newURI_start :
  newURI Samples.smart_start
  = "/api/content?dataSource=&includeSubFolders=false&category=&tags=&sortBy=&sortMethod=asc&presentAs=&limitResult=".
Proof. vm_compute. reflexivity. Qed.

Lemma loadContent_requests (st : State) :
  requests (loadContent st)
  = requests st ++ (if URI_hasChanged st then [URI_str st] else []).
Proof.
  unfold loadContent. destruct (URI_hasChanged st); [|by rewrite app_nil_r].
  unfold startLoader, detachFooter. simpl. by destruct (footer st).
Qed.

(** C8: setURI stores the new query string; it sets URI.hasChanged to true
    exactly when that string differs from the stored one, and emits the
    data-changed event exactly when it differs and the stored one was not
    empty; loadContent issues a request, for URI.str, exactly when
    URI.hasChanged is true. *)
Theorem C8_requests_only_on_change (st : State) :
  (URI_hasChanged (setURI st) = true <-> newURI st ≠ URI_str st) /\
  URI_str (setURI st) = newURI st /\
  emitted (setURI st)
  = emitted st ++
    (if bool_decide (newURI st ≠ URI_str st /\ URI_str st ≠ EmptyString)
     then [DATA_CHANGED st] else []) /\
  requests (setURI st) = requests st /\
  requests (loadContent st)
  = requests st ++ (if URI_hasChanged st then [URI_str st] else []).
Proof.
  split; [|split; [|split; [|split; [|apply loadContent_requests]]]];
    unfold setURI;
    destruct (decide (newURI st = URI_str st)) as [E|E];
    rewrite ?(bool_decide_eq_true_2 _ E), ?(bool_decide_eq_false_2 _ E); simpl;
    try (destruct (decide (URI_str st = EmptyString)) as [E0|E0];
         rewrite ?(bool_decide_eq_true_2 _ E0), ?(bool_decide_eq_false_2 _ E0);
         simpl);
    try done;
    try (rewrite bool_decide_eq_false_2 by tauto; by rewrite app_nil_r);
    try (rewrite bool_decide_eq_true_2 by tauto; done).
Qed.

(** At start the URI is set without a data-changed event and one request
    is issued; a second pass with the same overlay data issues none. *)
Example createComponent_requests_once :
  let st1 := loadContent (setURI Samples.smart_start) in
  let st2 := loadContent (setURI st1) in
  emitted st1 = ["husky.smart-content.undefined.data-request"] /\
  requests st1 = [newURI Samples.smart_start] /\
  URI_hasChanged st2 = false /\
  requests st2 = requests st1 /\
  emitted st2 = emitted st1.
Proof. cbv zeta. repeat split; vm_compute; reflexivity. Qed.

End SmartContentFacts.

(** ** Failed fetches *)

(** C3: the error callbacks of load and of loadContent only log: the data,
    the id arrays, the sort state, the items and the URI are as before, no
    event is emitted and no request is issued. *)
Theorem C3_fetch_errors_are_only_logged
    (g : DataGrid.State) (params : DataGrid.Params)
    (textStatus errorThrown : JS.value)
    (s : SmartContent.State) (error : JS.value) :
  let g' := DataGrid.load_error g params textStatus errorThrown in
  let s' := SmartContent.loadContent_error s error in
  (DataGrid.data g' = DataGrid.data g /\
   DataGrid.store g' = DataGrid.store g /\
   DataGrid.allItemIds g' = DataGrid.allItemIds g /\
   DataGrid.selectedItemIds g' = DataGrid.selectedItemIds g /\
   DataGrid.loaded g' = DataGrid.loaded g /\
   DataGrid.selected g' = DataGrid.selected g /\
   DataGrid.sort_attribute g' = DataGrid.sort_attribute g /\
   DataGrid.sort_direction g' = DataGrid.sort_direction g /\
   DataGrid.emitted g' = DataGrid.emitted g /\
   DataGrid.requests g' = DataGrid.requests g /\
   DataGrid.logged g' =
     DataGrid.logged g ++
     [ [JS.VStr ("An error occured while fetching data from: "
                 +:+ DataGrid.getUrl g params)];
       [JS.VStr ("textstatus: " +:+ JS.toString textStatus)];
       [JS.VStr "errorthrown"; errorThrown] ]) /\
  (SmartContent.items s' = SmartContent.items s /\
   SmartContent.itemsVisible s' = SmartContent.itemsVisible s /\
   SmartContent.URI_str s' = SmartContent.URI_str s /\
   SmartContent.URI_hasChanged s' = SmartContent.URI_hasChanged s /\
   SmartContent.overlayData s' = SmartContent.overlayData s /\
   SmartContent.content s' = SmartContent.content s /\
   SmartContent.footer s' = SmartContent.footer s /\
   SmartContent.emitted s' = SmartContent.emitted s /\
   SmartContent.requests s' = SmartContent.requests s /\
   SmartContent.started s' = SmartContent.started s /\
   SmartContent.logged s' = SmartContent.logged s ++ [[error]]).
Proof.
  cbv zeta. unfold DataGrid.load_error, SmartContent.loadContent_error.
  unfold DataGrid.log, SmartContent.log. simpl.
  repeat split; try reflexivity.
  by rewrite <- !app_assoc.
Qed.

(** ** Further properties of the data grid *)

Module DataGridLaws.
Import JS DataGrid ArrayFacts DataGridFacts.

(** *** Strict equality and search *)

Lemma strict_eq_eq (a b : value) : strict_eq a b = true -> a = b.
Proof.
  unfold strict_eq. destruct a, b; try discriminate;
    intros H; by apply bool_decide_eq_true_1 in H.
Qed.

Lemma strict_eq_truthy (x : value) : truthy x = true -> strict_eq x x = true.
Proof.
  destruct x; try discriminate; intros _; unfold strict_eq;
    by apply bool_decide_eq_true_2.
Qed.

Lemma strict_eq_false_ne (z x : value) :
  truthy x = true -> strict_eq z x = false -> z ≠ x.
Proof.
  intros Hx Hz ->. rewrite strict_eq_truthy in Hz by done. discriminate.
Qed.

Lemma indexOf_snoc_absent (arr : list value) (x : value) :
  Forall (fun z => strict_eq z x = false) arr ->
  strict_eq x x = true ->
  indexOf (arr ++ [x]) x = Z.of_nat (length arr).
Proof.
  intros Habs Hx. induction Habs as [|z r Hz _ IH]; simpl.
  - by rewrite Hx.
  - rewrite Hz, IH. destruct (Z.ltb_spec (Z.of_nat (length r)) 0); lia.
Qed.

Lemma absent_not_elem (arr : list value) (x : value) :
  truthy x = true ->
  Forall (fun z => strict_eq z x = false) arr -> x ∉ arr.
Proof.
  intros Hx Habs Hin. rewrite Forall_forall in Habs.
  by apply (strict_eq_false_ne x x Hx (Habs x Hin)).
Qed.

(** *** Check boxes *)

(** The events a click on a check box emits. *)
Lemma selectItem_checkbox_emitted (st : State) (ev : SelectClick) :
  input_type ev = VStr "checkbox" ->
  emitted (selectItem st ev) =
    emitted st ++
    [if -1 <? indexOf (selected st) (row_id ev)
     then {| ev_name := ITEM_DESELECT; ev_args := [AVal (row_id ev)] |}
     else {| ev_name := ITEM_SELECT;
             ev_args := [if truthy (row_id ev) then AVal (row_id ev)
                         else ADomEvent] |}].
Proof.
  intros Hty. unfold selectItem. rewrite Hty.
  change (strict_eq (VStr "checkbox") (VStr "checkbox")) with true. cbv iota.
  destruct (-1 <? indexOf (selected st) (row_id ev)); [reflexivity|].
  destruct (truthy (row_id ev)); reflexivity.
Qed.

Lemma selectItem_checkbox_selected (st : State) (ev : SelectClick) :
  wf st -> input_type ev = VStr "checkbox" ->
  selected (selectItem st ev) =
    (if -1 <? indexOf (selected st) (row_id ev)
     then splice1 (selected st) (indexOf (selected st) (row_id ev))
     else if truthy (row_id ev) then selected st ++ [row_id ev]
          else selected st).
Proof.
  intros Hwf Hty. rewrite selectItem_selected by done. rewrite Hty.
  change (strict_eq (VStr "checkbox") (VStr "checkbox")) with true. done.
Qed.

(** Ticking the check box of a row that is not selected and unticking it
    again gives back the selection there was, allItemIds untouched, with an
    item.select and then an item.deselect event for the row. *)
Theorem checkbox_select_then_deselect (st : State) (ev : SelectClick) :
  wf st ->
  input_type ev = VStr "checkbox" ->
  truthy (row_id ev) = true ->
  indexOf (selected st) (row_id ev) = -1 ->
  let st' := selectItem (selectItem st ev) ev in
  selected st' = selected st /\
  loaded st' = loaded st /\
  emitted st' =
    emitted st ++
    [ {| ev_name := ITEM_SELECT; ev_args := [AVal (row_id ev)] |};
      {| ev_name := ITEM_DESELECT; ev_args := [AVal (row_id ev)] |} ].
Proof.
  intros Hwf Hty Hid Habs st'. subst st'.
  assert (Hwf1 : wf (selectItem st ev)) by by apply selectItem_wf.
  assert (Hs1 : selected (selectItem st ev) = selected st ++ [row_id ev]).
  { rewrite selectItem_checkbox_selected by done. by rewrite Habs, Hid. }
  assert (Hix : indexOf (selected st ++ [row_id ev]) (row_id ev)
                = Z.of_nat (length (selected st))).
  { apply indexOf_snoc_absent; [|by apply strict_eq_truthy].
    apply indexOf_absent. lia. }
  assert (Hlt : (-1 <? Z.of_nat (length (selected st))) = true)
    by (apply Z.ltb_lt; lia).
  split; [|split].
  - rewrite selectItem_checkbox_selected by done.
    rewrite Hs1, Hix, Hlt.
    rewrite <- (app_nil_r (selected st)) at 3.
    apply splice1_indexOf; [by rewrite Nat2Z.id | lia].
  - by rewrite !selectItem_loaded.
  - rewrite !selectItem_checkbox_emitted by done.
    rewrite Hs1, Hix, Hlt, Habs, Hid. by rewrite <- app_assoc.
Qed.

Lemma checkbox_select_then_deselect_witness :
  let ev := Samples.checkbox_click (VNum 2) in
  let st' := selectItem (selectItem Samples.grid_123 ev) ev in
  selected st' = selected Samples.grid_123 /\
  loaded st' = loaded Samples.grid_123 /\
  emitted st' =
    emitted Samples.grid_123 ++
    [ {| ev_name := ITEM_SELECT; ev_args := [AVal (VNum 2)] |};
      {| ev_name := ITEM_DESELECT; ev_args := [AVal (VNum 2)] |} ].
Proof.
  exact (checkbox_select_then_deselect Samples.grid_123
           (Samples.checkbox_click (VNum 2))
           (wf_grid_of _) eq_refl eq_refl eq_refl).
Defined.

(** Clicks on check boxes keep selectedItemIds free of repeated and of
    falsy ids. *)
Theorem checkbox_keeps_ids_distinct (st : State) (ev : SelectClick) :
  wf st ->
  input_type ev = VStr "checkbox" ->
  NoDup (selected st) ->
  Forall (fun x => truthy x = true) (selected st) ->
  NoDup (selected (selectItem st ev)) /\
  Forall (fun x => truthy x = true) (selected (selectItem st ev)).
Proof.
  intros Hwf Hty Hnd Htr. rewrite selectItem_checkbox_selected by done.
  pose proof (indexOf_bounds (selected st) (row_id ev)) as Hb.
  destruct (Z.ltb_spec (-1) (indexOf (selected st) (row_id ev))) as [Hfound|Habs].
  - rewrite splice1_in_range by lia. split.
    + apply (sublist_NoDup _ (selected st)); [done|apply sublist_delete].
    + by apply Forall_delete.
  - destruct (truthy (row_id ev)) eqn:Hid; [|done]. split.
    + apply NoDup_app. split; [done|]. split; [|apply NoDup_singleton].
      intros x Hx Hx'. apply list_elem_of_singleton in Hx' as ->.
      revert Hx. apply absent_not_elem; [done|]. apply indexOf_absent. lia.
    + apply Forall_app. split; [done|]. by constructor.
Qed.

Lemma checkbox_keeps_ids_distinct_witness :
  let st := selectItem Samples.grid_123 (Samples.checkbox_click (VNum 2)) in
  NoDup (selected (selectItem st (Samples.checkbox_click (VNum 3)))) /\
  Forall (fun x => truthy x = true)
    (selected (selectItem st (Samples.checkbox_click (VNum 3)))).
Proof.
  cbv zeta.
  assert (Hs : selected (selectItem Samples.grid_123 (Samples.checkbox_click (VNum 2)))
               = [VNum 2]) by (vm_compute; reflexivity).
  apply (checkbox_keeps_ids_distinct
           (selectItem Samples.grid_123 (Samples.checkbox_click (VNum 2)))
           (Samples.checkbox_click (VNum 3))).
  - apply selectItem_wf, wf_grid_of.
  - reflexivity.
  - rewrite Hs. apply NoDup_singleton.
  - rewrite Hs. by repeat constructor.
Defined.

(** *** Row removal *)

Lemma removeRow_frame_witness :
  let st := selectAllItems Samples.compare_elements Samples.grid_123 in
  exists st',
    removeRow st (RemoveValue (VNum 2)) = Some st' /\
    allItemIds st' = allItemIds st /\
    loaded st' = loaded st /\
    emitted st' =
      emitted st ++
      [{| ev_name := ROW_REMOVED; ev_args := [AVal (VNum 2)] |}] /\
    ((exists before y after,
         selected st = before ++ y :: after /\
         strict_eq y (VNum 2) = true /\
         Forall (fun z => strict_eq z (VNum 2) = false) before /\
         selected st' = before ++ after)
     \/ (Forall (fun z => strict_eq z (VNum 2) = false) (selected st) /\
         selected st' = selected st)).
Proof.
  cbv zeta.
  apply (removeRow_frame
           (selectAllItems Samples.compare_elements Samples.grid_123)
           (RemoveValue (VNum 2))).
  - apply selectAllItems_effect, wf_grid_of.
  - discriminate.
Defined.

(** [removeRow] leaves the id in allItemIds: when the selection then
    differs from allItemIds, a click on the select-all box selects every
    loaded id, the id of the removed row among them. *)
Theorem removed_row_is_selected_again
    (compare : list value -> list value -> bool)
    (st st' : State) (a : RemoveArg) :
  wf st ->
  removeRow st a = Some st' ->
  compare (selected st') (loaded st') = false ->
  selected (selectAllItems compare st') = loaded st /\
  (removed_id a ∈ loaded st ->
   removed_id a ∈ selected (selectAllItems compare st')).
Proof.
  intros Hwf Hrm Hcmp.
  destruct (removeRow_effect st st' a Hwf Hrm) as (Hwf' & _ & Hl & _ & _).
  destruct (selectAllItems_effect compare st' Hwf') as (_ & _ & _ & _ & Hc).
  rewrite Hcmp in Hc. destruct Hc as (Hs & _).
  rewrite Hs, Hl. split; done.
Qed.

Lemma removed_row_is_selected_again_witness :
  exists st',
    removeRow Samples.grid_123 (RemoveValue (VNum 2)) = Some st' /\
    selected (selectAllItems Samples.compare_elements st')
    = [VNum 1; VNum 2; VNum 3].
Proof.
  eexists. split; [reflexivity|].
  refine (proj1 (removed_row_is_selected_again Samples.compare_elements
                   Samples.grid_123 _ (RemoveValue (VNum 2))
                   (wf_grid_of _) eq_refl _)).
  vm_compute. reflexivity.
Defined.

(** *** Select all *)

Lemma selectAllItems_replaces_the_array_aux
    (compare : list value -> list value -> bool) (st : State) :
  wf st -> deref (selectAllItems compare st) (selectedItemIds st) = selected st.
Proof.
  intros Hwf.
  pose proof (alloc_fresh st [] Hwf) as [Hna Hns]. simpl in Hna, Hns.
  unfold selectAllItems.
  destruct (compare (selected st) (loaded st));
    open_state; by rewrite lookup_insert_ne.
Qed.

(** [selectAllItems] never writes into an array: allItemIds and the array
    that was selectedItemIds keep their elements, and selectedItemIds
    becomes a new array object, empty when the comparison holds and
    otherwise an equal copy of allItemIds that is another object. *)
Theorem selectAllItems_replaces_the_array
    (compare : list value -> list value -> bool) (st : State) :
  wf st ->
  let st' := selectAllItems compare st in
  allItemIds st' = allItemIds st /\
  loaded st' = loaded st /\
  deref st' (selectedItemIds st) = selected st /\
  selectedItemIds st' ≠ selectedItemIds st /\
  selectedItemIds st' ≠ allItemIds st' /\
  selected st' = (if compare (selected st) (loaded st) then [] else loaded st).
Proof.
  intros Hwf st'. subst st'.
  pose proof (alloc_fresh st [] Hwf) as [Hna Hns]. simpl in Hna, Hns.
  unfold selectAllItems.
  destruct (compare (selected st) (loaded st));
    open_state; rewrite lookup_insert_eq, !lookup_insert_ne by done;
    repeat split; done.
Qed.

Lemma selectAllItems_replaces_the_array_witness :
  let st := Samples.grid_123 in
  let st' := selectAllItems Samples.compare_elements st in
  allItemIds st' = allItemIds st /\
  loaded st' = loaded st /\
  deref st' (selectedItemIds st) = selected st /\
  selectedItemIds st' ≠ selectedItemIds st /\
  selectedItemIds st' ≠ allItemIds st' /\
  selected st' =
    (if Samples.compare_elements (selected st) (loaded st) then [] else loaded st).
Proof.
  exact (selectAllItems_replaces_the_array Samples.compare_elements
           Samples.grid_123 (wf_grid_of _)).
Defined.

(** When the comparison holds for equal arrays, two clicks on the
    select-all box of a grid whose selection differs from allItemIds leave
    nothing selected, after an all.select and an all.deselect event. *)
Theorem selectAllItems_twice_deselects
    (compare : list value -> list value -> bool) (st : State) :
  wf st ->
  (forall a, compare a a = true) ->
  compare (selected st) (loaded st) = false ->
  let st1 := selectAllItems compare st in
  let st2 := selectAllItems compare st1 in
  selected st1 = loaded st /\
  selected st2 = [] /\
  loaded st2 = loaded st /\
  emitted st2 =
    emitted st ++
    [ {| ev_name := ALL_SELECT; ev_args := [AArr (selectedItemIds st1)] |};
      {| ev_name := ALL_DESELECT; ev_args := [AVal VNull] |} ].
Proof.
  intros Hwf Hrefl Hcmp st1 st2. subst st1 st2.
  destruct (selectAllItems_effect compare st Hwf) as (Hwf1 & _ & Hl1 & _ & Hc1).
  rewrite Hcmp in Hc1. destruct Hc1 as (Hs1 & _ & He1).
  destruct (selectAllItems_effect compare _ Hwf1) as (_ & _ & Hl2 & _ & Hc2).
  rewrite Hs1, Hl1, Hrefl in Hc2. destruct Hc2 as (Hs2 & He2).
  repeat split; try done.
  - by rewrite Hl2.
  - rewrite He2, He1. by rewrite <- app_assoc.
Qed.

Lemma selectAllItems_twice_deselects_witness :
  let st1 := selectAllItems Samples.compare_elements Samples.grid_123 in
  let st2 := selectAllItems Samples.compare_elements st1 in
  selected st1 = loaded Samples.grid_123 /\
  selected st2 = [] /\
  loaded st2 = loaded Samples.grid_123 /\
  emitted st2 =
    emitted Samples.grid_123 ++
    [ {| ev_name := ALL_SELECT; ev_args := [AArr (selectedItemIds st1)] |};
      {| ev_name := ALL_DESELECT; ev_args := [AVal VNull] |} ].
Proof.
  refine (selectAllItems_twice_deselects Samples.compare_elements
            Samples.grid_123 (wf_grid_of _) _ _).
  - intros a. unfold Samples.compare_elements. by apply bool_decide_eq_true_2.
  - vm_compute. reflexivity.
Defined.

(** *** Page navigation *)

(** While the current page is at most the number of pages displayed, the
    navigation shows the pages 1 to that number, and an entry carries
    is-selected exactly when it is the entry of the current page. *)
Theorem pagination_within_display (p d : Z) :
  1 <= p <= d ->
  li_page <$> paginationPageNavigation p d = seqZ 1 d /\
  (p ∈ (li_page <$> paginationPageNavigation p d)) /\
  NoDup (li_page <$> paginationPageNavigation p d) /\
  forall it, it ∈ paginationPageNavigation p d ->
             ("is-selected" ∈ li_class it <-> li_page it = p).
Proof.
  intros Hpd. rewrite pagination_window_low by done.
  split; [done|]. split; [apply elem_of_seqZ; lia|].
  split; [apply NoDup_seqZ|].
  intros it. apply pagination_selected_entry.
Qed.

Lemma pagination_within_display_witness :
  li_page <$> paginationPageNavigation 3 5 = seqZ 1 5 /\
  (3 ∈ (li_page <$> paginationPageNavigation 3 5)) /\
  NoDup (li_page <$> paginationPageNavigation 3 5) /\
  forall it, it ∈ paginationPageNavigation 3 5 ->
             ("is-selected" ∈ li_class it <-> li_page it = 3).
Proof. apply (pagination_within_display 3 5). lia. Defined.

(** Once the current page is greater than the number [d] of pages
    displayed, the navigation shows the [d] pages before the current one:
    the current page is not among them and no entry carries is-selected. *)
Theorem pagination_beyond_display (p d : Z) :
  1 <= d < p ->
  li_page <$> paginationPageNavigation p d = seqZ (p - d) d /\
  (p ∉ (li_page <$> paginationPageNavigation p d)) /\
  Forall (fun it => li_class it = ["page"]) (paginationPageNavigation p d).
Proof.
  intros Hpd. rewrite pagination_window_high by done.
  rewrite pages_of_items by (intros; reflexivity).
  split; [done|]. split.
  - rewrite elem_of_seqZ. lia.
  - apply Forall_fmap, Forall_true. done.
Qed.

Lemma pagination_beyond_display_witness :
  li_page <$> paginationPageNavigation 9 4 = seqZ 5 4 /\
  (9 ∉ (li_page <$> paginationPageNavigation 9 4)) /\
  Forall (fun it => li_class it = ["page"]) (paginationPageNavigation 9 4).
Proof. apply (pagination_beyond_display 9 4). lia. Defined.

(** *** Sorting *)

(** A click on a sortable header followed by a click on the same header,
    its span then carrying the classes [setHeaderClasses] gives it, sorts
    in the other direction; the data is not touched by either click. *)
Theorem sorting_alternates
    (expand : string -> string -> value -> string)
    (st : State) (ev : SortClick) (d : Data) (l : Links)
    (m : gmap string string) (t : string) :
  data st = Some d -> links d = Some l -> sortable l = Some m ->
  truthy (attribute ev) = true ->
  m !! toString (attribute ev) = Some t -> t ≠ EmptyString ->
  exists st1 header span st2,
    changeSorting expand st ev = Some st1 /\
    setHeaderClasses st1 = Some (header, span) /\
    changeSorting expand st1
      {| attribute := attribute ev; span_class := span |} = Some st2 /\
    data st2 = data st /\
    sort_attribute st2 = attribute ev /\
    ((sort_direction st1 = VStr "asc" /\ sort_direction st2 = VStr "desc") \/
     (sort_direction st1 = VStr "desc" /\ sort_direction st2 = VStr "asc")).
Proof.
  intros Hd Hl Hm Ha Ht Hne.
  destruct t as [|c t]; [done|].
  assert (Hlink : forall s, data s = data st ->
            sortable_link s (attribute ev) = Some (VStr (String c t))).
  { intros s Hs. unfold sortable_link. rewrite Hs, Hd. simpl.
    rewrite Hl. simpl. rewrite Hm. simpl. by rewrite Ht. }
  unfold changeSorting at 1. rewrite Ha, (Hlink st eq_refl). simpl.
  destruct (bool_decide (ascClass ∈ span_class ev)).
  - eexists _, ["bold"], (descClass :: additionalClasses), _.
    split; [reflexivity|].
    split; [unfold setHeaderClasses; simpl; by rewrite Ha|].
    unfold changeSorting. cbn [attribute span_class].
    rewrite Ha, Hlink by reflexivity. simpl.
    split; [reflexivity|]. split; [reflexivity|]. split; [reflexivity|].
    right. split; reflexivity.
  - eexists _, ["bold"], (ascClass :: additionalClasses), _.
    split; [reflexivity|].
    split; [unfold setHeaderClasses; simpl; by rewrite Ha|].
    unfold changeSorting. cbn [attribute span_class].
    rewrite Ha, Hlink by reflexivity. simpl.
    split; [reflexivity|]. split; [reflexivity|]. split; [reflexivity|].
    left. split; reflexivity.
Qed.

Lemma sorting_alternates_witness :
  let m : gmap string string := {[ "name" := "/api/items?sortBy=name&sortOrder=" ]} in
  let st := Samples.grid_sortable m in
  let ev := Samples.header_click "name" [] in
  exists st1 header span st2,
    changeSorting Samples.expand_append st ev = Some st1 /\
    setHeaderClasses st1 = Some (header, span) /\
    changeSorting Samples.expand_append st1
      {| attribute := attribute ev; span_class := span |} = Some st2 /\
    data st2 = data st /\
    sort_attribute st2 = attribute ev /\
    ((sort_direction st1 = VStr "asc" /\ sort_direction st2 = VStr "desc") \/
     (sort_direction st1 = VStr "desc" /\ sort_direction st2 = VStr "asc")).
Proof.
  cbv zeta.
  refine (sorting_alternates Samples.expand_append
            (Samples.grid_sortable {[ "name" := "/api/items?sortBy=name&sortOrder=" ]})
            (Samples.header_click "name" [])
            _ _ _ "/api/items?sortBy=name&sortOrder="
            eq_refl eq_refl eq_refl eq_refl eq_refl _).
  discriminate.
Defined.

(** *** Loaded ids *)

(** The ids [prepareTableRow] pushes for a list of rows. *)
Lemma foldl_prepareTableRow (rows : list Row) (st : State) :
  wf st ->
  truthy (template_row (options st)) = false ->
  let st' := foldl prepareTableRow st rows in
  wf st' /\
  options st' = options st /\
  allItemIds st' = allItemIds st /\
  selectedItemIds st' = selectedItemIds st /\
  selected st' = selected st /\
  loaded st' =
    loaded st ++
    (parseInt <$> filter (fun v => truthy v = true)
                    ((fun r => prop r "id") <$> rows)).
Proof.
  revert st. induction rows as [|r rows IH]; intros st Hwf Ht; cbn [foldl].
  - cbv zeta. rewrite fmap_nil, filter_nil, fmap_nil, app_nil_r. done.
  - assert (Hstep : wf (prepareTableRow st r) /\
             options (prepareTableRow st r) = options st /\
             allItemIds (prepareTableRow st r) = allItemIds st /\
             selectedItemIds (prepareTableRow st r) = selectedItemIds st /\
             selected (prepareTableRow st r) = selected st /\
             loaded (prepareTableRow st r) =
               loaded st ++
               (if truthy (prop r "id") then [parseInt (prop r "id")] else [])).
    { split; [by apply wf_prepareTableRow|].
      unfold prepareTableRow. rewrite Ht.
      destruct (truthy (prop r "id")); [|by rewrite app_nil_r].
      destruct Hwf as (Hne & Ha & Hs & _).
      repeat split; try done.
      - unfold selected. by apply deref_mutate_ne.
      - unfold loaded. by apply deref_mutate_eq. }
    destruct Hstep as (Hwf1 & Ho1 & Ha1 & Hs1 & Hsel1 & Hl1).
    destruct (IH (prepareTableRow st r) Hwf1) as (Hwf2 & Ho2 & Ha2 & Hs2 & Hsel2 & Hl2).
    { by rewrite Ho1. }
    cbv zeta. split; [done|]. split; [congruence|]. split; [congruence|].
    split; [congruence|]. split; [congruence|].
    rewrite Hl2, Hl1, <- app_assoc. f_equal.
    rewrite fmap_cons, filter_cons.
    destruct (truthy (prop r "id")) eqn:E.
    + rewrite decide_True by done. by rewrite fmap_cons.
    + rewrite decide_False by done. done.
Qed.

(** What [DataGrid.prepareTableRows] leaves: allItemIds is a new array
    that holds, in the order of the rows, parseInt of every truthy row id,
    or nothing when a row template is configured; the selection is left
    as it was. *)
Lemma prepareTableRows_ids (st : State) (d : Data) (rows : list Row) :
  wf st ->
  data st = Some d ->
  items d = Some rows \/ (items d = None /\ embedded d = Some rows) ->
  let st' := prepareTableRows st in
  loaded st' =
    (if truthy (template_row (options st)) then []
     else parseInt <$> filter (fun v => truthy v = true)
                         ((fun r => prop r "id") <$> rows)) /\
  allItemIds st' ≠ allItemIds st /\
  selectedItemIds st' = selectedItemIds st /\
  selected st' = selected st.
Proof.
  intros Hwf Hd Hrows st'. subst st'.
  pose proof (wf_alloc_loaded st [] Hwf) as Hwf1.
  pose proof (alloc_fresh st [] Hwf) as [Hna _].
  unfold prepareTableRows.
  set (st2 := with_ids (snd (alloc st [])) (fst (alloc st [])) (selectedItemIds st)) in *.
  change (let st' := match data st2 with
             | Some d =>
                 match items d, embedded d with
                 | Some rows, _ => foldl prepareTableRow st2 rows
                 | None, Some rows => foldl prepareTableRow st2 rows
                 | None, None => st2
                 end
             | None => st2
             end in
          loaded st' =
            (if truthy (template_row (options st)) then []
             else parseInt <$> filter (fun v => truthy v = true)
                                 ((fun r => prop r "id") <$> rows)) /\
          allItemIds st' ≠ allItemIds st /\
          selectedItemIds st' = selectedItemIds st /\
          selected st' = selected st).
  change (data st2) with (data st). rewrite Hd.
  assert (Hl2 : loaded st2 = []).
  { unfold st2. open_state. by rewrite lookup_insert_eq. }
  assert (Hs2 : selected st2 = selected st).
  { unfold st2. open_state. rewrite lookup_insert_ne; [done|].
    destruct Hwf as (_ & _ & Hs & Hn). apply Hn in Hs. lia. }
  assert (Hgoal : let st' := foldl prepareTableRow st2 rows in
          loaded st' =
            (if truthy (template_row (options st)) then []
             else parseInt <$> filter (fun v => truthy v = true)
                                 ((fun r => prop r "id") <$> rows)) /\
          allItemIds st' ≠ allItemIds st /\
          selectedItemIds st' = selectedItemIds st /\
          selected st' = selected st).
  { destruct (truthy (template_row (options st))) eqn:Ht.
    - assert (Hid : foldl prepareTableRow st2 rows = st2).
      { clear Hrows. induction rows as [|r rows IH]; [done|]. cbn [foldl].
        unfold prepareTableRow at 2.
        change (options st2) with (options st). by rewrite Ht. }
      cbv zeta. rewrite Hid. repeat split; try done.
    - destruct (foldl_prepareTableRow rows st2 Hwf1 Ht)
        as (_ & _ & Ha & Hs & Hsel & Hl).
      cbv zeta. rewrite Hl, Hl2, Ha, Hs, Hsel. repeat split; try done. }
  destruct Hrows as [-> | [-> ->]]; exact Hgoal.
Qed.

Import DataGridRows.






(** Rows without such a cell are all rendered. *)
Example prepareTableRows_renders :
  exists t',
    DataGridRows.prepareTableRows
      (MoreSamples.table_of_rows
         [ {[ "id" := VStr "7"; "name" := VStr "a" ]}; {[ "id" := VNum 0 ]};
           {[ "id" := VStr "12px" ]} ])
    = Rendered t' /\
    loaded (grid t') = [VNum 7; VNum 12].
Proof. eexists. split; vm_compute; reflexivity. Qed.

(** *** Widths *)

Import DataGridPages.

#[local] Arguments is_digit : simpl never.
#[local] Arguments is_space : simpl never.
#[local] Arguments is_line_end : simpl never.
#[local] Arguments is_ascii : simpl never.

Lemma space_is_no_digit (c : Ascii.ascii) : is_space c = true -> is_digit c = false.
Proof. destruct c as [[] [] [] [] [] [] [] []]; vm_compute; congruence. Qed.

Lemma first_digits_none (s : string) :
  first_digits s = None <-> every (fun c => negb (is_digit c)) s = true.
Proof.
  induction s as [|c s IH]; simpl; [done|].
  destruct (is_digit c); simpl; [|done]. split; discriminate.
Qed.

Lemma span_digits_app (num rest : string) :
  every is_digit num = true ->
  starts (fun c => negb (is_digit c)) rest = true ->
  span_digits (num +:+ rest) = (num, rest).
Proof.
  intros Hnum Hrest. induction num as [|c num IH]; simpl in *.
  - destruct rest as [|c r]; [done|]. simpl in *.
    by destruct (is_digit c).
  - apply andb_true_iff in Hnum as [-> Hnum]. by rewrite IH.
Qed.

Lemma first_digits_app (pre s : string) :
  every (fun c => negb (is_digit c)) pre = true ->
  first_digits (pre +:+ s) = first_digits s.
Proof.
  intros Hpre. induction pre as [|c pre IH]; simpl in *; [done|].
  apply andb_true_iff in Hpre as [Hc Hpre].
  destruct (is_digit c); [done|]. by apply IH.
Qed.

Lemma ascii_is_no_space2 (a b : Ascii.ascii) :
  is_ascii a = true -> is_space2 a b = false.
Proof.
  unfold is_ascii, is_space2. intros H%Z.ltb_lt.
  destruct (Z.eqb_spec (byte_code a) 194); [lia|done].
Qed.

Lemma ascii_is_no_space3 (a b c : Ascii.ascii) :
  is_ascii a = true -> is_space3 a b c = false.
Proof.
  unfold is_ascii, is_space3. intros H%Z.ltb_lt. cbv zeta.
  repeat match goal with
         | |- context [byte_code a =? ?k] =>
             destruct (Z.eqb_spec (byte_code a) k); [lia|]
         end.
  reflexivity.
Qed.

Lemma ascii_is_no_line_end3 (a b c : Ascii.ascii) :
  is_ascii a = true -> is_line_end3 a b c = false.
Proof.
  unfold is_ascii, is_line_end3. intros H%Z.ltb_lt.
  destruct (Z.eqb_spec (byte_code a) 226); [lia|done].
Qed.

Lemma skip_space_ascii (u : string) :
  starts (fun c => is_ascii c && negb (is_space c)) u = true ->
  skip_space u = u.
Proof.
  destruct u as [|c u]; [done|]. cbn [starts skip_space].
  intros [Ha Hs%negb_true_iff]%andb_true_iff. rewrite Hs.
  destruct u as [|c2 u]; [done|]. rewrite (ascii_is_no_space2 c c2 Ha).
  destruct u as [|c3 u]; [done|]. by rewrite (ascii_is_no_space3 c c2 c3 Ha).
Qed.

Lemma skip_space_app (ws u : string) :
  every is_space ws = true ->
  starts (fun c => is_ascii c && negb (is_space c)) u = true ->
  skip_space (ws +:+ u) = u.
Proof.
  intros Hws Hu. induction ws as [|c ws IH].
  - by apply skip_space_ascii.
  - cbn [every] in Hws. apply andb_true_iff in Hws as [Hc Hws].
    change (String c ws +:+ u) with (String c (ws +:+ u)).
    cbn [skip_space]. rewrite Hc. by apply IH.
Qed.

Lemma up_to_line_end_whole (u : string) :
  every (fun c => is_ascii c && negb (is_line_end c)) u = true ->
  up_to_line_end u = u.
Proof.
  intros Hu. induction u as [|c u IH]; [done|].
  cbn [every] in Hu. apply andb_true_iff in Hu as [Hc Hu].
  apply andb_true_iff in Hc as [Ha Hl%negb_true_iff].
  cbn [up_to_line_end at_line_end]. rewrite Hl, orb_false_l.
  assert (Hno : match u with
                | String c2 (String c3 _) => is_line_end3 c c2 c3
                | _ => false
                end = false).
  { destruct u as [|c2 [|c3 u']]; [done..|]. by apply ascii_is_no_line_end3. }
  rewrite Hno. by rewrite IH.
Qed.

(** [getNumberAndUnit] throws exactly when the text of its argument holds
    no digit. *)
Theorem getNumberAndUnit_throws_without_digit (numberUnit defaultUnit : value) :
  getNumberAndUnit numberUnit defaultUnit = None <->
  every (fun c => negb (is_digit c)) (toString numberUnit) = true.
Proof.
  rewrite <- first_digits_none. unfold getNumberAndUnit.
  destruct (first_digits (toString numberUnit)) as [[number rest]|]; simpl;
    split; done.
Qed.

(** For a text made of characters that are no digits, then digits, then
    white space of one byte, then a unit of characters of one byte (ASCII)
    on one line that starts with neither a digit nor white space,
    [getNumberAndUnit] returns the digits and the unit, or the default
    unit when it is truthy and the unit is empty. *)
Theorem getNumberAndUnit_reads_number_and_unit
    (pre num ws unit : string) (defaultUnit : value) :
  every (fun c => negb (is_digit c)) pre = true ->
  num ≠ EmptyString ->
  every is_digit num = true ->
  every is_space ws = true ->
  every (fun c => is_ascii c && negb (is_line_end c)) unit = true ->
  starts (fun c => negb (is_digit c) && negb (is_space c)) unit = true ->
  getNumberAndUnit (VStr (pre +:+ num +:+ ws +:+ unit)) defaultUnit =
    Some (VStr num,
          if truthy defaultUnit && bool_decide (unit = EmptyString)
          then defaultUnit else VStr unit).
Proof.
  intros Hpre Hne Hnum Hws Hunit Hstart.
  assert (Hu1 : starts (fun c => is_ascii c && negb (is_space c)) unit = true).
  { destruct unit as [|c u]; [done|]. cbn [starts every] in *.
    apply andb_true_iff in Hstart as [_ ->].
    apply andb_true_iff in Hunit as [[-> _]%andb_true_iff _]. done. }
  assert (Hrest : starts (fun c => negb (is_digit c)) (ws +:+ unit) = true).
  { destruct ws as [|c ws]; simpl in *.
    - destruct unit as [|c u]; [done|]. simpl in *.
      by apply andb_true_iff in Hstart as [? _].
    - apply andb_true_iff in Hws as [Hc _].
      by rewrite (space_is_no_digit c Hc). }
  unfold getNumberAndUnit. cbn [toString].
  rewrite first_digits_app by done.
  assert (Hfirst : first_digits (num +:+ ws +:+ unit) = Some (num, ws +:+ unit)).
  { destruct num as [|c num]; [done|].
    pose proof Hnum as Hall. simpl in Hnum.
    apply andb_true_iff in Hnum as [Hc Hnum].
    change (first_digits (String c (num +:+ ws +:+ unit))
            = Some (String c num, ws +:+ unit)).
    cbn [first_digits]. rewrite Hc. f_equal.
    change (String c (num +:+ ws +:+ unit)) with (String c num +:+ ws +:+ unit).
    by apply span_digits_app. }
  rewrite Hfirst. cbn [mbind option_bind].
  rewrite skip_space_app, up_to_line_end_whole by done.
  do 3 f_equal. by destruct unit.
Qed.

Lemma getNumberAndUnit_reads_number_and_unit_witness :
  getNumberAndUnit (VStr "w:120 px") (VStr "em") = Some (VStr "120", VStr "px") /\
  getNumberAndUnit (VStr "50") (VStr "px") = Some (VStr "50", VStr "px").
Proof.
  split.
  - exact (getNumberAndUnit_reads_number_and_unit "w:" "120" " " "px" (VStr "em")
             eq_refl ltac:(discriminate) eq_refl eq_refl eq_refl eq_refl).
  - exact (getNumberAndUnit_reads_number_and_unit EmptyString "50" EmptyString
             EmptyString (VStr "px")
             eq_refl ltac:(discriminate) eq_refl eq_refl eq_refl eq_refl).
Defined.

Example getNumberAndUnit_auto :
  getNumberAndUnit (VStr "auto") (VStr "px") = None.
Proof. reflexivity. Qed.

Example getNumberAndUnit_number :
  getNumberAndUnit (VNum 50) (VStr "px") = Some (VStr "50", VStr "px").
Proof. vm_compute. reflexivity. Qed.

(** *** The array of selected ids that is handed out *)

Lemma selectItem_selectedItemIds (st : State) (ev : SelectClick) :
  selectedItemIds (selectItem st ev) = selectedItemIds st.
Proof.
  unfold selectItem.
  repeat match goal with
         | |- context [if ?c then _ else _] => destruct c
         end; reflexivity.
Qed.

(** The array [getSelectedItemsIds] hands to its callback is
    selectedItemIds itself, not a copy: a later tick of a check box shows
    in it, while after a click on the select-all box or after
    resetItemSelection it still holds the ids it held, the component then
    using another array. *)
Theorem handed_out_array_is_shared
    (compare : list value -> list value -> bool)
    (st : State) (ev : SelectClick) (l : loc) :
  wf st ->
  snd (getSelectedItemsIds st true) = Some l ->
  input_type ev = VStr "checkbox" ->
  truthy (row_id ev) = true ->
  indexOf (selected st) (row_id ev) = -1 ->
  fst (getSelectedItemsIds st true) = st /\
  deref st l = selected st /\
  deref (selectItem st ev) l = selected st ++ [row_id ev] /\
  deref (selectAllItems compare st) l = selected st /\
  deref (resetItemSelection st) l = selected st.
Proof.
  intros Hwf [= <-] Hty Hid Habs.
  split; [reflexivity|]. split; [reflexivity|]. split; [|split].
  - rewrite <- (selectItem_selectedItemIds st ev).
    change (deref (selectItem st ev) (selectedItemIds (selectItem st ev)))
      with (selected (selectItem st ev)).
    rewrite selectItem_checkbox_selected by done. by rewrite Habs, Hid.
  - by destruct (selectAllItems_replaces_the_array_aux compare st Hwf).
  - destruct Hwf as (Hne & Ha & Hs & Hn). pose proof (Hn _ Hs).
    unfold resetItemSelection. open_state.
    rewrite !lookup_insert_ne by lia. done.
Qed.

Lemma handed_out_array_is_shared_witness :
  let st := Samples.grid_123 in
  let ev := Samples.checkbox_click (VNum 2) in
  let l := selectedItemIds st in
  fst (getSelectedItemsIds st true) = st /\
  deref st l = selected st /\
  deref (selectItem st ev) l = selected st ++ [row_id ev] /\
  deref (selectAllItems Samples.compare_elements st) l = selected st /\
  deref (resetItemSelection st) l = selected st.
Proof.
  exact (handed_out_array_is_shared Samples.compare_elements Samples.grid_123
           (Samples.checkbox_click (VNum 2)) _
           (wf_grid_of _) eq_refl eq_refl eq_refl eq_refl).
Defined.

(** *** Page changes *)

(** With the links of the data loaded, a click on a page entry whose page
    is not named sortable or as a property of Object.prototype empties
    both id arrays, emits page.change and issues one request: for the link
    of that name when there is a non-empty one, and otherwise for the
    expansion of the pagination link with the page. The url is requested
    as it is: [getUrl] appends neither the page size nor the page, whatever
    the pagination options are. *)
Theorem changePage_requests_the_link
    (expand : value -> string -> value -> string)
    (c : Component) (page : value) (d : Data) (l : Links) :
  wf (core c) ->
  data (core c) = Some d -> links d = Some l ->
  truthy page = true ->
  toString page ≠ "sortable" ->
  inherited (toString page) = false ->
  let u := match named_links c !! toString page with
           | Some (String a s) => String a s
           | _ => expand (link c "pagination") "page" page
           end in
  exists c',
    changePage expand c page = Returned c' /\
    named_links c' = named_links c /\
    data (core c') = data (core c) /\
    selected (core c') = [] /\
    loaded (core c') = [] /\
    emitted (core c') =
      emitted (core c) ++
      [{| ev_name := PAGE_CHANGE; ev_args := [AVal (VStr "change page")] |}] /\
    requests (core c') =
      requests (core c) ++
      [{| req_url := u;
          req_params := {| url := u; params_page := page;
                           success := UpdatedPage |} |}].
Proof.
  intros Hwf Hd Hl Hp _ _ u.
  destruct (resetItemSelection_effect (core c) Hwf) as (_ & Hs & Hlo & He).
  assert (Hdr : data (resetItemSelection (core c)) = Some d) by exact Hd.
  assert (Hrq : requests (resetItemSelection (core c)) = requests (core c))
    by reflexivity.
  unfold changePage. rewrite Hp.
  generalize dependent (resetItemSelection (core c)). intros st1 Hs Hlo He Hdr Hrq.
  assert (Hdata : data (emit st1 PAGE_CHANGE [AVal (VStr "change page")]) = Some d)
    by exact Hdr.
  rewrite Hdata. cbn [mbind option_bind]. rewrite Hl.
  unfold link. cbn [named_links].
  assert (Hu : (if truthy (from_option VStr VUndefined
                             (named_links c !! toString page))
                then toString (from_option VStr VUndefined
                                 (named_links c !! toString page))
                else expand (from_option VStr VUndefined
                               (named_links c !! "pagination")) "page" page) = u).
  { subst u. unfold link.
    destruct (named_links c !! toString page) as [[|a s]|]; reflexivity. }
  rewrite Hu. clearbody u.
  eexists. split; [reflexivity|]. cbn [core named_links].
  split; [reflexivity|].
  split; [change (data st1 = data (core c)); by rewrite Hdr, Hd|].
  split; [rewrite <- Hs; reflexivity|].
  split; [rewrite <- Hlo; reflexivity|].
  split.
  - rewrite <- He. reflexivity.
  - unfold load, ajax, getUrl, links_loaded. cbn [requests data url].
    rewrite Hdata, Hl, <- Hrq. reflexivity.
Qed.

Lemma changePage_requests_the_link_witness :
  exists c',
    changePage MoreSamples.expand_append MoreSamples.paged_grid (VStr "next")
    = Returned c' /\
    selected (core c') = [] /\
    loaded (core c') = [] /\
    req_url <$> requests (core c') = ["/api/items?page=2&pageSize=10"].
Proof.
  assert (Hd : data (core MoreSamples.paged_grid) = Some MoreSamples.paged_data)
    by (vm_compute; reflexivity).
  destruct (changePage_requests_the_link MoreSamples.expand_append
              MoreSamples.paged_grid (VStr "next")
              MoreSamples.paged_data {| sortable := None |}
              (wf_prepareTableRows _ (wf_with_data _ _ (wf_initialize _)))
              Hd eq_refl eq_refl ltac:(discriminate) eq_refl)
    as (c' & Hc & _ & _ & Hs & Hl & _ & Hr).
  exists c'. split; [exact Hc|]. split; [exact Hs|]. split; [exact Hl|].
  rewrite Hr. vm_compute. reflexivity.
Defined.

Example changePage_numbered :
  exists c',
    changePage MoreSamples.expand_append MoreSamples.paged_grid (VNum 3)
    = Returned c' /\
    req_url <$> requests (core c') = ["/api/items?pageSize=10&page=3"].
Proof. eexists. split; vm_compute; reflexivity. Qed.

Example changePage_no_page :
  changePage MoreSamples.expand_append MoreSamples.paged_grid VUndefined
  = Returned MoreSamples.paged_grid.
Proof. reflexivity. Qed.

End DataGridLaws.

(** ** Further properties of the smart content *)

Module SmartContentLaws.
Import JS SmartContent SmartContentHandlers SmartContentFacts.

(** *** The footer *)

(** With items and a non-negative itemsVisible, the footer that
    renderContent puts into the container shows the number of entries of
    the list and the number of items, itemsVisible becomes the number of
    entries, and the toggler offers to view all when entries are hidden, to
    view less when all of more than options.visibleItems items are shown,
    and is absent otherwise. *)
Theorem footer_counts_match_list (st : State) :
  items st ≠ [] ->
  0 <= itemsVisible st ->
  exists lis f,
    content (renderContent st) = ItemsList lis /\
    footer (renderContent st) = FooterAttached f /\
    footer_visible f = Z.of_nat (length lis) /\
    footer_total f = Z.of_nat (length (items st)) /\
    itemsVisible (renderContent st) = Z.of_nat (length lis) /\
    footer_toggler f =
      (if Z.of_nat (length lis) <? Z.of_nat (length (items st)) then Some ViewAll
       else if visibleItems (options st) <? Z.of_nat (length (items st))
            then Some ViewLess else None).
Proof.
  intros Hne Hv. unfold renderContent.
  destruct (items st) as [|it r] eqn:E; [done|].
  change (negb (Z.of_nat (length (it :: r)) =? 0)) with true. cbv iota.
  exists (contentItems (it :: r) 0 (itemsVisible st)). eexists.
  split; [reflexivity|]. split; [reflexivity|].
  assert (Hlen : Z.of_nat (length (contentItems (it :: r) 0 (itemsVisible st)))
                 = (if Z.of_nat (length (it :: r)) <? itemsVisible st
                    then Z.of_nat (length (it :: r)) else itemsVisible st)).
  { rewrite contentItems_length, Z.sub_0_r.
    destruct (Z.ltb_spec (Z.of_nat (length (it :: r))) (itemsVisible st)); lia. }
  unfold renderFooter, appendViewToggler, with_view.
  cbn [footer_visible footer_total footer_toggler itemsVisible items options].
  rewrite E, Hlen. done.
Qed.

Lemma footer_counts_match_list_witness :
  exists lis f,
    content (renderContent Samples.smart_seven) = ItemsList lis /\
    footer (renderContent Samples.smart_seven) = FooterAttached f /\
    footer_visible f = Z.of_nat (length lis) /\
    footer_total f = Z.of_nat (length (items Samples.smart_seven)) /\
    itemsVisible (renderContent Samples.smart_seven) = Z.of_nat (length lis) /\
    footer_toggler f =
      (if Z.of_nat (length lis) <? Z.of_nat (length (items Samples.smart_seven))
       then Some ViewAll
       else if visibleItems (options Samples.smart_seven)
               <? Z.of_nat (length (items Samples.smart_seven))
            then Some ViewLess else None).
Proof.
  apply (footer_counts_match_list Samples.smart_seven); [discriminate|].
  vm_compute. discriminate.
Defined.

(** *** The view toggler *)

(** The loop renders every item once the bound reaches their number. *)
Lemma contentItems_all (l : list Item) (i visible : Z) :
  i + Z.of_nat (length l) <= visible ->
  length (contentItems l i visible) = length l.
Proof. intros H. rewrite contentItems_length. lia. Qed.

(** While entries are hidden (itemsVisible, not negative, is less than the
    number of items), a click on the toggler shows all the items:
    the list has one entry for each item, itemsVisible is their number, and
    the footer counts all of them and offers to view less when they are
    more than options.visibleItems. *)
Theorem toggleView_shows_all_items (st : State) :
  0 <= itemsVisible st < Z.of_nat (length (items st)) ->
  exists lis,
    content (toggleView st) = ItemsList lis /\
    length lis = length (items st) /\
    itemsVisible (toggleView st) = Z.of_nat (length (items st)) /\
    footer (toggleView st) =
      FooterAttached
        {| footer_visible := Z.of_nat (length (items st));
           footer_total := Z.of_nat (length (items st));
           footer_toggler :=
             if visibleItems (options st) <? Z.of_nat (length (items st))
             then Some ViewLess else None |}.
Proof.
  intros Hlt. unfold toggleView.
  destruct (Z.ltb_spec (itemsVisible st) (Z.of_nat (length (items st)))); [|lia].
  unfold renderContent. cbn [items itemsVisible with_view].
  destruct (Z.eqb_spec (Z.of_nat (length (items st))) 0) as [E0|E0].
  - lia.
  - cbn [negb].
    exists (contentItems (items st) 0 (Z.of_nat (length (items st)))).
    split; [reflexivity|]. split; [apply contentItems_all; lia|].
    unfold renderFooter, appendViewToggler, with_view.
    cbn [footer itemsVisible items options].
    rewrite !Z.ltb_irrefl. done.
Qed.

Lemma toggleView_shows_all_items_witness :
  exists lis,
    content (toggleView Samples.smart_seven) = ItemsList lis /\
    length lis = 7%nat.
Proof.
  destruct (toggleView_shows_all_items Samples.smart_seven)
    as (lis & Hc & Hlen & _); [vm_compute; split; [discriminate|reflexivity]|].
  exists lis. split; [exact Hc|exact Hlen].
Defined.

Lemma with_view_id (st : State) :
  with_view st (itemsVisible st) (content st) (footer st) = st.
Proof. by destruct st. Qed.

Lemma toggleView_with_view (st : State) (iv : Z) (c : Content) (f : FooterState) :
  toggleView (with_view st iv c f) =
    renderContent
      (with_view st
         (if iv <? Z.of_nat (length (items st))
          then Z.of_nat (length (items st)) else visibleItems (options st))
         c f).
Proof. reflexivity. Qed.

Lemma renderContent_with_items (st : State) (iv : Z) (c : Content) (f : FooterState) :
  items st ≠ [] ->
  renderContent (with_view st iv c f) =
    with_view st
      (if Z.of_nat (length (items st)) <? iv
       then Z.of_nat (length (items st)) else iv)
      (ItemsList (contentItems (items st) 0 iv))
      (FooterAttached
         {| footer_visible :=
              if Z.of_nat (length (items st)) <? iv
              then Z.of_nat (length (items st)) else iv;
            footer_total := Z.of_nat (length (items st));
            footer_toggler :=
              if (if Z.of_nat (length (items st)) <? iv
                  then Z.of_nat (length (items st)) else iv)
                 <? Z.of_nat (length (items st))
              then Some ViewAll
              else if visibleItems (options st) <? Z.of_nat (length (items st))
                   then Some ViewLess else None |}).
Proof.
  intros Hne. unfold renderContent. cbn [items with_view].
  destruct (items st) as [|it r] eqn:E; [done|].
  change (negb (Z.of_nat (length (it :: r)) =? 0)) with true. cbv iota.
  unfold renderFooter, appendViewToggler, with_view.
  cbn [itemsVisible options items content footer URI_str URI_hasChanged
       overlayData emitted logged requests started].
  by rewrite E.
Qed.

Lemma renderContent_without_items (st : State) (iv : Z) (c : Content) (f : FooterState) :
  items st = [] ->
  renderContent (with_view st iv c f) =
    with_view st iv (NoContent "smart-content.nocontent-selected")
      (match f with FooterAttached x => FooterDetached x | _ => f end).
Proof.
  intros E. unfold renderContent. cbn [items with_view]. rewrite E.
  change (negb (Z.of_nat (length (@nil Item)) =? 0)) with false. cbv iota.
  unfold detachFooter, with_view. cbn [footer]. by destruct f.
Qed.

Ltac compare_cases :=
  repeat match goal with
         | |- context [?a <? ?b] =>
             lazymatch a with
             | context [_ <? _] => fail
             | _ => destruct (Z.ltb_spec a b); try lia
             end
         end.

(** From a view rendered with itemsVisible at options.visibleItems, two
    clicks on the toggler give back the same component state. *)
Theorem toggleView_twice_restores (st : State) :
  itemsVisible st = visibleItems (options st) ->
  toggleView (toggleView (renderContent st)) = renderContent st.
Proof.
  intros Hv. rewrite <- (with_view_id st) at 1 2. rewrite Hv.
  generalize (content st) (footer st). intros c f.
  set (v := visibleItems (options st)).
  destruct (decide (items st = [])) as [E|Hne].
  - rewrite renderContent_without_items by done.
    rewrite toggleView_with_view, renderContent_without_items by done.
    rewrite toggleView_with_view, renderContent_without_items by done.
    rewrite E. change (Z.of_nat (length (@nil Item))) with 0. fold v.
    compare_cases; by destruct f.
  - rewrite renderContent_with_items by done.
    rewrite toggleView_with_view, renderContent_with_items by done.
    rewrite toggleView_with_view, renderContent_with_items by done.
    fold v. set (n := Z.of_nat (length (items st))).
    compare_cases; reflexivity.
Qed.

Lemma toggleView_twice_restores_witness :
  toggleView (toggleView (renderContent Samples.smart_seven))
  = renderContent Samples.smart_seven.
Proof. exact (toggleView_twice_restores Samples.smart_seven eq_refl). Defined.

(** *** Requests *)

Lemma newURI_ext (st st' : State) :
  options st' = options st -> overlayData st' = overlayData st ->
  newURI st' = newURI st.
Proof. intros Ho Hd. unfold newURI. by rewrite Ho, Hd. Qed.

Lemma setURI_same (st : State) :
  URI_str st = newURI st -> setURI st = with_URI st (newURI st) false.
Proof.
  intros E. unfold setURI. rewrite bool_decide_eq_true_2 by done.
  simpl. by rewrite E.
Qed.

Lemma onInputRetrieved_fields (st : State) :
  options (onInputRetrieved st) = options st /\
  overlayData (onInputRetrieved st) = overlayData st /\
  URI_str (onInputRetrieved st) = newURI st.
Proof.
  unfold onInputRetrieved, loadContent, setURI, startLoader, detachFooter.
  destruct (bool_decide (newURI st = URI_str st)) eqn:E; simpl.
  - apply bool_decide_eq_true_1 in E. by rewrite E.
  - destruct (negb (bool_decide (URI_str st = EmptyString))); simpl;
      destruct (footer st); done.
Qed.

(** When the overlay is confirmed again with the same data, the handler of
    input-retrieved requests nothing and emits nothing: it only sets
    URI.hasChanged to false. *)
Theorem same_input_is_requested_once (st : State) :
  onInputRetrieved (onInputRetrieved st)
  = with_URI (onInputRetrieved st) (newURI st) false.
Proof.
  destruct (onInputRetrieved_fields st) as (Ho & Hd & Hu).
  unfold onInputRetrieved at 1.
  rewrite setURI_same; rewrite (newURI_ext st _ Ho Hd); done.
Qed.

(** After a failed request the content still shows the loader, the footer
    is not in the container, and confirming the overlay with the same data
    does not request again. *)
Theorem failed_fetch_is_not_retried (st : State) (error : value) :
  newURI st ≠ URI_str st ->
  let st1 := loadContent_error (onInputRetrieved st) error in
  requests st1 = requests st ++ [newURI st] /\
  content st1 = Loader /\
  (forall f, footer st1 ≠ FooterAttached f) /\
  requests (onInputRetrieved st1) = requests st1 /\
  emitted (onInputRetrieved st1) = emitted st1 /\
  content (onInputRetrieved st1) = Loader.
Proof.
  intros Hne st1.
  destruct (onInputRetrieved_fields st) as (Ho & Hd & Hu).
  assert (H1 : requests st1 = requests st ++ [newURI st] /\
               content st1 = Loader /\
               (forall f, footer st1 ≠ FooterAttached f)).
  { subst st1. unfold onInputRetrieved, loadContent, setURI, startLoader,
      detachFooter, loadContent_error.
    rewrite bool_decide_eq_false_2 by done. simpl.
    destruct (negb (bool_decide (URI_str st = EmptyString))); simpl;
      destruct (footer st) eqn:Ef; simpl; rewrite ?Ef; repeat split; done. }
  destruct H1 as (Hr & Hc & Hf).
  assert (E : onInputRetrieved st1 = with_URI st1 (newURI st) false).
  { unfold onInputRetrieved.
    assert (Hn : newURI st1 = newURI st) by by apply newURI_ext.
    rewrite setURI_same; rewrite Hn; done. }
  rewrite E. repeat split; done.
Qed.

Lemma failed_fetch_is_not_retried_witness :
  let st1 := loadContent_error (onInputRetrieved Samples.smart_start) (VStr "timeout") in
  requests st1 = requests Samples.smart_start ++ [newURI Samples.smart_start] /\
  content st1 = Loader /\
  (forall f, footer st1 ≠ FooterAttached f) /\
  requests (onInputRetrieved st1) = requests st1 /\
  emitted (onInputRetrieved st1) = emitted st1 /\
  content (onInputRetrieved st1) = Loader.
Proof.
  apply (failed_fetch_is_not_retried Samples.smart_start (VStr "timeout")).
  vm_compute. discriminate.
Defined.

End SmartContentLaws.
